(** * Heating values of C/H/O fuels: the routine of notebook 2_5_Heating_value

    The notebook [Chapter_2/2_5_Heating_value.ipynb] computes lower and
    higher heating values of a fuel from mixture enthalpies reported by the
    Cantera library.  This file embeds

    - the function [heating_values] of cell 16, statement by statement, as a
      program in a state-and-exception monad over the two global objects
      [gas] and [water] it mutates;
    - the worked propane example of cells 3 to 15;
    - the atom balance of the global reaction the routine relies on.

    Python computes on binary64 floating-point numbers.  The embedding is
    written once over an interface [Arith] of numbers and read in two ways:
    over the rationals [Q] (exact arithmetic, where algebraic laws hold) and
    over Rocq's primitive binary64 floats (the arithmetic the notebook really
    runs, where results can be evaluated bit for bit). *)

From Stdlib Require Import QArith Qabs ZArith List String Bool Lqa.
From Stdlib Require Import Floats.PrimFloat Floats.SpecFloat Floats.FloatOps.
Import ListNotations.

Set Warnings "-inexact-float".

(** ** Numbers *)

(** A numeric literal of the source, in its two readings: the decimal
    fraction that is written, and the binary64 value Python parses it to. *)
Record Literal : Type := mkLiteral {
  exact : Q;
  binary64 : float
}.

(** The arithmetic the routine uses: the four operations of Python's
    [float], an equality test, and the reading of literals. *)
Class Arith (num : Type) : Type := {
  add : num -> num -> num;
  sub : num -> num -> num;
  mul : num -> num -> num;
  div : num -> num -> num;
  eqb : num -> num -> bool;
  lit : Literal -> num
}.

Declare Scope num_scope.
Delimit Scope num_scope with num.
Infix "+" := add : num_scope.
Infix "-" := sub : num_scope.
Infix "*" := mul : num_scope.
Infix "/" := div : num_scope.

(** Exact reading.  Division by zero yields [0] here; it raises no error,
    as numpy's division (which yields [inf] or [nan]) raises none. *)
#[export] Instance Arith_Q : Arith Q := {
  add := Qplus;
  sub := Qminus;
  mul := Qmult;
  div := Qdiv;
  eqb := Qeq_bool;
  lit := exact
}.

(** Binary64 reading: IEEE 754 round-to-nearest operations. *)
#[export] Instance Arith_float : Arith float := {
  add := PrimFloat.add;
  sub := PrimFloat.sub;
  mul := PrimFloat.mul;
  div := PrimFloat.div;
  eqb := PrimFloat.eqb;
  lit := binary64
}.

(** The literals that occur in cell 16 and in the worked example. *)
Module Lit.

Definition c0_0 : Literal := mkLiteral 0.0%Q 0.0%float.
Definition c1_0 : Literal := mkLiteral 1.0%Q 1.0%float.
Definition c2 : Literal := mkLiteral 2%Q 2%float.
Definition c4 : Literal := mkLiteral 4%Q 4%float.
Definition c3_76 : Literal := mkLiteral 3.76%Q 3.76%float.
Definition c298_15 : Literal := mkLiteral 298.15%Q 298.15%float.
Definition c1000 : Literal := mkLiteral 1000%Q 1000%float.

(** [ct.one_atm], the library's constant for one atmosphere in Pa
    (the notebook prints it as [pressure 101325 Pa]). *)
Definition one_atm : Literal := mkLiteral 101325%Q 101325%float.

End Lit.

(** ** Exceptions and results *)

(** Exceptions of the Python run time that the library raises. *)
Inductive exn : Type :=
| CanteraError (msg : string)
| ValueError (msg : string).

Inductive result (A : Type) : Type :=
| Ok (a : A)
| Raise (e : exn).
Arguments Ok {A} a.
Arguments Raise {A} e.

(** A Python dict with string keys, in insertion order. *)
Definition dict (V : Type) : Type := list (string * V).

(** ** The external thermochemistry library

    Everything numerically significant is delegated to Cantera, which is not
    part of the repository.  Its database and solvers are a parameter of the
    development: a record of functions, each of which may raise. *)
Record Library (num : Type) : Type := mkLibrary {
  (** the composition vector a [Solution] holds *)
  composition : Type;
  (** validation done when temperature and pressure are set *)
  lib_check_TP : num -> num -> result unit;
  (** mole fractions of a fuel/oxidizer mixture at an equivalence ratio *)
  lib_equivalence_ratio : num -> string -> string -> result composition;
  (** mole fractions from a dict of relative mole numbers, normalised *)
  lib_mole_fractions : dict num -> result composition;
  (** index of a species name; raises for a name that is not in the phase *)
  lib_species_index : string -> result nat;
  (** the array of mass fractions of a composition *)
  lib_Y : composition -> nat -> num;
  (** mixture enthalpy per unit mass at temperature, pressure, composition *)
  lib_enthalpy_mass : num -> num -> composition -> num;
  (** atoms of an element in a species *)
  lib_n_atoms : string -> string -> result num;
  (** the array of molecular weights *)
  lib_molecular_weights : nat -> num;
  (** validation done when the water state is set by temperature and
      vapor fraction *)
  lib_check_TX : num -> num -> result unit;
  (** enthalpy per unit mass of water at temperature and vapor fraction *)
  lib_water_h : num -> num -> num
}.
Arguments composition {num} _.
Arguments lib_check_TP {num} _ _ _.
Arguments lib_equivalence_ratio {num} _ _ _ _.
Arguments lib_mole_fractions {num} _ _.
Arguments lib_species_index {num} _ _.
Arguments lib_Y {num} _ _ _.
Arguments lib_enthalpy_mass {num} _ _ _ _.
Arguments lib_n_atoms {num} _ _ _.
Arguments lib_molecular_weights {num} _ _.
Arguments lib_check_TX {num} _ _ _.
Arguments lib_water_h {num} _ _ _.

(** ** The two mutable objects *)

(** Thermochemical state of the ideal-gas mixture [gas = ct.Solution(...)]. *)
Record Solution (num : Type) (lib : Library num) : Type := mkSolution {
  T : num;
  P : num;
  X : composition lib
}.
Arguments mkSolution {num lib} _ _ _.
Arguments T {num lib} _.
Arguments P {num lib} _.
Arguments X {num lib} _.

(** State of the liquid/vapor object [water = ct.Water()]. *)
Record Water (num : Type) : Type := mkWater {
  water_T : num;
  water_X : num
}.
Arguments mkWater {num} _ _.
Arguments water_T {num} _.
Arguments water_X {num} _.

(** The notebook's global objects. *)
Record World (num : Type) (lib : Library num) : Type := mkWorld {
  gas : Solution num lib;
  water : Water num
}.
Arguments mkWorld {num lib} _ _.
Arguments gas {num lib} _.
Arguments water {num lib} _.

(** ** The monad of notebook code

    A computation reads and updates the global objects and either returns a
    value or raises.  There is no handler: the notebook has no [try]. *)
Section Routine.

Context {num : Type} {AR : Arith num}.
Variable lib : Library num.

Local Open Scope num_scope.
Local Open Scope string_scope.

Definition M (A : Type) : Type := World num lib -> result (A * World num lib).

Definition ret {A : Type} (a : A) : M A := fun w => Ok (a, w).

Definition bind {A B : Type} (c : M A) (k : A -> M B) : M B :=
  fun w =>
    match c w with
    | Ok (a, w') => k a w'
    | Raise e => Raise e
    end.

(** A library call that touches no object: its exception, if any, is the
    computation's. *)
Definition call {A : Type} (r : result A) : M A :=
  fun w =>
    match r with
    | Ok a => Ok (a, w)
    | Raise e => Raise e
    end.

Notation "x <- c ;; k" := (bind c (fun x => k))
  (at level 61, c at next level, right associativity).
Notation "c ;; k" := (bind c (fun _ => k))
  (at level 61, right associativity).

(** *** Operations of the [gas] object *)

(** [gas.TP = T, P]: temperature and pressure are replaced, the composition
    is kept. *)
Definition gas_set_TP (T' P' : num) : M unit :=
  fun w =>
    match lib_check_TP lib T' P' with
    | Raise e => Raise e
    | Ok _ => Ok (tt, mkWorld (mkSolution T' P' (X (gas w))) (water w))
    end.

(** [gas.set_equivalence_ratio(phi, fuel, oxidizer)]: the composition is
    replaced, temperature and pressure are held. *)
Definition gas_set_equivalence_ratio (phi : num) (fuel oxidizer : string)
  : M unit :=
  fun w =>
    match lib_equivalence_ratio lib phi fuel oxidizer with
    | Raise e => Raise e
    | Ok X' => Ok (tt, mkWorld (mkSolution (T (gas w)) (P (gas w)) X') (water w))
    end.

(** [gas.TPX = T, P, X]: an entry that is [None] leaves that quantity as it
    is.  The notebook says so before cell 6 (the composition is set "without
    changing the pressure and temperature") and shows it in the output of
    cell 8, which still reports 298.15 K and 101325 Pa.  The composition is
    set first, then temperature and pressure. *)
Definition gas_set_TPX (T' P' : option num) (X' : dict num) : M unit :=
  fun w =>
    match lib_mole_fractions lib X' with
    | Raise e => Raise e
    | Ok Xn =>
        let Tn := match T' with Some t => t | None => T (gas w) end in
        let Pn := match P' with Some p => p | None => P (gas w) end in
        match T', P' with
        | None, None => Ok (tt, mkWorld (mkSolution Tn Pn Xn) (water w))
        | _, _ =>
            match lib_check_TP lib Tn Pn with
            | Raise e => Raise e
            | Ok _ => Ok (tt, mkWorld (mkSolution Tn Pn Xn) (water w))
            end
        end
    end.

(** [gas.Y]: the mass fractions of the current composition. *)
Definition gas_Y : M (nat -> num) :=
  fun w => Ok (lib_Y lib (X (gas w)), w).

(** [gas.species_index(name)] *)
Definition gas_species_index (name : string) : M nat :=
  call (lib_species_index lib name).

(** [gas.enthalpy_mass]: read at the current temperature, pressure and
    composition. *)
Definition gas_enthalpy_mass : M num :=
  fun w => Ok (lib_enthalpy_mass lib (T (gas w)) (P (gas w)) (X (gas w)), w).

(** [gas.n_atoms(species, element)] *)
Definition gas_n_atoms (species element : string) : M num :=
  call (lib_n_atoms lib species element).

(** [gas.molecular_weights] *)
Definition gas_molecular_weights : M (nat -> num) :=
  ret (lib_molecular_weights lib).

(** *** Operations of the [water] object *)

(** [water.TX = T, X] *)
Definition water_set_TX (T' X' : num) : M unit :=
  fun w =>
    match lib_check_TX lib T' X' with
    | Raise e => Raise e
    | Ok _ => Ok (tt, mkWorld (gas w) (mkWater T' X'))
    end.

(** [water.h] *)
Definition water_h : M num :=
  fun w => Ok (lib_water_h lib (water_T (water w)) (water_X (water w)), w).

(** *** Cell 16: [heating_values] *)

(** [T_ref = 298.15] (K) *)
Definition T_ref : num := lit Lit.c298_15.

(** [P_ref = ct.one_atm] (Pa) *)
Definition P_ref : num := lit Lit.one_atm.

(** [air = 'O2:1.0 N2:3.76'] *)
Definition air : string := "O2:1.0 N2:3.76".

(** [a = x + y/4. - z/2.]: moles of O2 needed per mole of fuel. *)
Definition stoich_a (x y z : num) : num :=
  x + y / lit Lit.c4 - z / lit Lit.c2.

(** [N_CO2 = x] *)
Definition N_CO2 (x y z : num) : num := x.

(** [N_H2O = y/2.] *)
Definition N_H2O (x y z : num) : num := y / lit Lit.c2.

(** [N_N2 = 3.76*a] *)
Definition N_N2 (x y z : num) : num := lit Lit.c3_76 * stoich_a x y z.

(** [X_prod = {'CO2':N_CO2,'H2O':N_H2O,'N2':N_N2}] *)
Definition X_prod (x y z : num) : dict num :=
  [("CO2", N_CO2 x y z); ("H2O", N_H2O x y z); ("N2", N_N2 x y z)].

(** The two statements that set the reactant state, on their own:
    [gas.TP = T_ref , P_ref] and [gas.set_equivalence_ratio(1.0, fuel, air)]. *)
Definition set_reactants (fuel : string) : M unit :=
  gas_set_TP T_ref P_ref ;;
  gas_set_equivalence_ratio (lit Lit.c1_0) fuel air.

(** The statement that sets the product state, on its own:
    [gas.TPX = None , None , X_prod]. *)
Definition set_products (x y z : num) : M unit :=
  gas_set_TPX None None (X_prod x y z).

(** The function of cell 16.  It returns
    [lhv_mass, lhv_mole, hhv_mass, hhv_mole]. *)
Definition heating_values (fuel : string) : M (num * num * num * num) :=
  (* gas.TP = T_ref , P_ref *)
  gas_set_TP T_ref P_ref ;;
  (* gas.set_equivalence_ratio(1.0, fuel, air) *)
  gas_set_equivalence_ratio (lit Lit.c1_0) fuel air ;;
  (* Y_fuel_reac = gas.Y[gas.species_index(fuel)] *)
  Y <- gas_Y ;;
  i <- gas_species_index fuel ;;
  let Y_fuel_reac := Y i in
  (* h_reac_mass = gas.enthalpy_mass *)
  h_reac_mass <- gas_enthalpy_mass ;;
  (* x, y, z = gas.n_atoms(fuel,'C'), (fuel,'H'), (fuel,'O') *)
  x <- gas_n_atoms fuel "C" ;;
  y <- gas_n_atoms fuel "H" ;;
  z <- gas_n_atoms fuel "O" ;;
  (* gas.TPX = None , None , X_prod *)
  gas_set_TPX None None (X_prod x y z) ;;
  (* h_prod_mass = gas.enthalpy_mass *)
  h_prod_mass <- gas_enthalpy_mass ;;
  (* lhv_mass = ( h_reac_mass - h_prod_mass ) / Y_fuel_reac *)
  let lhv_mass := (h_reac_mass - h_prod_mass) / Y_fuel_reac in
  (* lhv_mole = lhv_mass*gas.molecular_weights[gas.species_index(fuel)] *)
  mw <- gas_molecular_weights ;;
  i1 <- gas_species_index fuel ;;
  let lhv_mole := lhv_mass * mw i1 in
  (* water.TX = T_ref, 0.0 ; h_liq = water.h *)
  water_set_TX T_ref (lit Lit.c0_0) ;;
  h_liq <- water_h ;;
  (* water.TX = T_ref, 1.0 ; h_gas = water.h *)
  water_set_TX T_ref (lit Lit.c1_0) ;;
  h_gas <- water_h ;;
  (* h_fg = h_gas - h_liq *)
  let h_fg := h_gas - h_liq in
  (* m_h2o = N_H2O*gas.molecular_weights[gas.species_index('H2O')]
             / gas.molecular_weights[gas.species_index(fuel)] *)
  mw2 <- gas_molecular_weights ;;
  iw <- gas_species_index "H2O" ;;
  mw3 <- gas_molecular_weights ;;
  i2 <- gas_species_index fuel ;;
  let m_h2o := N_H2O x y z * mw2 iw / mw3 i2 in
  (* hhv_mass = lhv_mass + m_h2o*h_fg *)
  let hhv_mass := lhv_mass + m_h2o * h_fg in
  (* hhv_mole = hhv_mass*gas.molecular_weights[gas.species_index(fuel)] *)
  mw4 <- gas_molecular_weights ;;
  i3 <- gas_species_index fuel ;;
  let hhv_mole := hhv_mass * mw4 i3 in
  (* return lhv_mass,lhv_mole,hhv_mass,hhv_mole *)
  ret (lhv_mass, lhv_mole, hhv_mass, hhv_mole).

End Routine.

Arguments M {num} lib A.
Arguments ret {num lib A} a _.
Arguments bind {num lib A B} c k _.
Arguments call {num lib A} r _.
Arguments gas_set_TP {num} lib T' P' _.
Arguments gas_set_equivalence_ratio {num} lib phi fuel oxidizer _.
Arguments gas_set_TPX {num} lib T' P' X' _.
Arguments gas_Y {num} lib _.
Arguments gas_species_index {num} lib name _.
Arguments gas_enthalpy_mass {num} lib _.
Arguments gas_n_atoms {num} lib species element _.
Arguments gas_molecular_weights {num} lib _.
Arguments water_set_TX {num} lib T' X' _.
Arguments water_h {num} lib _.
Arguments T_ref {num AR}.
Arguments P_ref {num AR}.
Arguments stoich_a {num AR} x y z.
Arguments N_CO2 {num} x y z.
Arguments N_H2O {num AR} x y z.
Arguments N_N2 {num AR} x y z.
Arguments X_prod {num AR} x y z.
Arguments set_reactants {num AR} lib fuel _.
Arguments set_products {num AR} lib x y z _.
Arguments heating_values {num AR} lib fuel _.

(** ** The library's answers to one call *)
Section Answers.

Context {num : Type} {AR : Arith num}.
Variable lib : Library num.

Local Open Scope num_scope.
Local Open Scope string_scope.

(** The value of a run, without the final state of the objects. *)
Definition value {A : Type} (r : result (A * World num lib)) : result A :=
  match r with
  | Ok (a, _) => Ok a
  | Raise e => Raise e
  end.

(** What the library returns at the call sites of [heating_values]. *)
Record Answers : Type := mkAnswers {
  X_reac : composition lib;
  i_fuel : nat;
  n_C : num;
  n_H : num;
  n_O : num;
  X_burnt : composition lib;
  i_H2O : nat
}.

(** Every library call of [heating_values fuel] returns, with these
    answers. *)
Definition answered (fuel : string) (o : Answers) : Prop :=
  lib_check_TP lib T_ref P_ref = Ok tt /\
  lib_equivalence_ratio lib (lit Lit.c1_0) fuel air = Ok (X_reac o) /\
  lib_species_index lib fuel = Ok (i_fuel o) /\
  lib_n_atoms lib fuel "C" = Ok (n_C o) /\
  lib_n_atoms lib fuel "H" = Ok (n_H o) /\
  lib_n_atoms lib fuel "O" = Ok (n_O o) /\
  lib_mole_fractions lib (X_prod (n_C o) (n_H o) (n_O o)) = Ok (X_burnt o) /\
  lib_species_index lib "H2O" = Ok (i_H2O o) /\
  lib_check_TX lib T_ref (lit Lit.c0_0) = Ok tt /\
  lib_check_TX lib T_ref (lit Lit.c1_0) = Ok tt.

(** Mass fraction of the fuel in the stoichiometric reactants. *)
Definition Y_fuel_reac (o : Answers) : num := lib_Y lib (X_reac o) (i_fuel o).

(** Reactant and product mixture enthalpies per unit mass, both at the
    reference temperature and pressure. *)
Definition h_reac_mass (o : Answers) : num :=
  lib_enthalpy_mass lib T_ref P_ref (X_reac o).

Definition h_prod_mass (o : Answers) : num :=
  lib_enthalpy_mass lib T_ref P_ref (X_burnt o).

Definition MW_fuel (o : Answers) : num := lib_molecular_weights lib (i_fuel o).

Definition MW_H2O (o : Answers) : num := lib_molecular_weights lib (i_H2O o).

(** Enthalpy of vaporization of water at the reference temperature: vapor
    fraction one minus vapor fraction zero. *)
Definition h_fg : num :=
  lib_water_h lib T_ref (lit Lit.c1_0) - lib_water_h lib T_ref (lit Lit.c0_0).

(** Mass of product water per mass of fuel. *)
Definition m_h2o (o : Answers) : num :=
  N_H2O (n_C o) (n_H o) (n_O o) * MW_H2O o / MW_fuel o.

Definition lhv_mass (o : Answers) : num :=
  (h_reac_mass o - h_prod_mass o) / Y_fuel_reac o.

Definition hhv_mass (o : Answers) : num := lhv_mass o + m_h2o o * h_fg.

(** The complete-combustion product state at the reference temperature and
    pressure. *)
Definition product_state (o : Answers) : Solution num lib :=
  mkSolution T_ref P_ref (X_burnt o).

Definition final_world (o : Answers) : World num lib :=
  mkWorld (product_state o) (mkWater T_ref (lit Lit.c1_0)).

(** The exceptions the library raises at the call sites of
    [heating_values]. *)
Inductive library_raises (fuel : string) (e : exn) : Prop :=
| raises_TP :
    lib_check_TP lib T_ref P_ref = Raise e -> library_raises fuel e
| raises_set_equivalence_ratio :
    lib_equivalence_ratio lib (lit Lit.c1_0) fuel air = Raise e ->
    library_raises fuel e
| raises_species_index (name : string) :
    lib_species_index lib name = Raise e -> library_raises fuel e
| raises_n_atoms (element : string) :
    lib_n_atoms lib fuel element = Raise e -> library_raises fuel e
| raises_TPX (X' : dict num) :
    lib_mole_fractions lib X' = Raise e -> library_raises fuel e
| raises_TX (x : num) :
    lib_check_TX lib T_ref x = Raise e -> library_raises fuel e.

End Answers.

Arguments value {num lib A} r.
Arguments mkAnswers {num lib} _ _ _ _ _ _ _.
Arguments X_reac {num lib} _.
Arguments i_fuel {num lib} _.
Arguments n_C {num lib} _.
Arguments n_H {num lib} _.
Arguments n_O {num lib} _.
Arguments X_burnt {num lib} _.
Arguments i_H2O {num lib} _.
Arguments answered {num AR} lib fuel o.
Arguments Y_fuel_reac {num lib} o.
Arguments h_reac_mass {num AR lib} o.
Arguments h_prod_mass {num AR lib} o.
Arguments MW_fuel {num lib} o.
Arguments MW_H2O {num lib} o.
Arguments h_fg {num AR} lib.
Arguments m_h2o {num AR lib} o.
Arguments lhv_mass {num AR lib} o.
Arguments hhv_mass {num AR lib} o.
Arguments product_state {num AR lib} o.
Arguments final_world {num AR lib} o.
Arguments library_raises {num AR} lib fuel e.

(** ** Atom balance of the global reaction

    [C_x H_y O_z + a (O2 + 3.76 N2) -> x CO2 + y/2 H2O + 3.76 a N2] *)
Section Balance.

Context {num : Type} {AR : Arith num}.

Local Open Scope num_scope.
Local Open Scope string_scope.

Inductive element : Type := C | H | O | N.

(** Atoms of each element in one molecule. *)
Definition formula : Type := element -> num.

Definition zero : num := lit Lit.c0_0.
Definition one : num := lit Lit.c1_0.
Definition two : num := lit Lit.c2.

(** The fuel molecule [C_x H_y O_z]. *)
Definition fuel_formula (x y z : num) : formula :=
  fun e => match e with C => x | H => y | O => z | N => zero end.

(** The molecules named in the reaction. *)
Definition formula_of (name : string) : formula :=
  fun e =>
    if String.eqb name "O2" then match e with O => two | _ => zero end
    else if String.eqb name "N2" then match e with N => two | _ => zero end
    else if String.eqb name "CO2" then
      match e with C => one | O => two | _ => zero end
    else if String.eqb name "H2O" then
      match e with H => two | O => one | _ => zero end
    else zero.

(** Atoms of element [e] in a mixture given by mole numbers. *)
Fixpoint atoms (e : element) (side : list (num * formula)) : num :=
  match side with
  | [] => zero
  | (n, f) :: rest => n * f e + atoms e rest
  end.

(** Left side: one mole of fuel and [a] moles of [O2 + 3.76 N2]. *)
Definition reactants (x y z : num) : list (num * formula) :=
  [(one, fuel_formula x y z);
   (stoich_a x y z, formula_of "O2");
   (lit Lit.c3_76 * stoich_a x y z, formula_of "N2")].

(** Right side: the mole numbers [X_prod] that the routine hands to the
    library. *)
Definition products (x y z : num) : list (num * formula) :=
  map (fun kv => (snd kv, formula_of (fst kv))) (X_prod x y z).

End Balance.

Arguments zero {num AR}.
Arguments one {num AR}.
Arguments two {num AR}.

(** ** The worked example: propane, cells 3 to 15 *)
Module Worked.

(** Values the notebook prints.  [Out[4]]: reactant enthalpy (J/kg). *)
Definition out4 : Literal :=
  mkLiteral (-142083.21261478376)%Q (-142083.21261478376)%float.

(** [Out[5]]: mass fraction of C3H8 in the reactants. *)
Definition out5 : Literal :=
  mkLiteral 0.06034469442007445%Q 0.06034469442007445%float.

(** [Out[6]]: atoms of C and H in C3H8 (the count of O is [0.0]). *)
Definition out6_x : Literal := mkLiteral 3.0%Q 3.0%float.
Definition out6_y : Literal := mkLiteral 8.0%Q 8.0%float.

(** [Out[9]]: product enthalpy (J/kg). *)
Definition out9 : Literal :=
  mkLiteral (-2939189.2483540904)%Q (-2939189.2483540904)%float.

(** [Out[13]]: enthalpy of vaporization of water (kJ/kg). *)
Definition out13 : Literal :=
  mkLiteral 2442.3120195756946%Q 2442.3120195756946%float.

(** Entries of [gas1.molecular_weights] for H2O and C3H8 (kg/kmol).  The
    notebook does not print them; these are the values of GRI-Mech 3.0, and
    they reproduce what it prints from them ([Out[10]], [Out[13]],
    [Out[14]], [Out[15]]). *)
Definition mw_H2O : Literal := mkLiteral 18.01528%Q 18.01528%float.
Definition mw_C3H8 : Literal := mkLiteral 44.09652%Q 44.09652%float.

Section Cells.

Context {num : Type} {AR : Arith num}.

Local Open Scope num_scope.

Definition h_reac_mass : num := lit out4.
Definition Y_C3H8_reac : num := lit out5.
Definition x : num := lit out6_x.
Definition y : num := lit out6_y.
Definition z : num := lit Lit.c0_0.
Definition h_prod_mass : num := lit out9.
Definition MW_H2O : num := lit mw_H2O.
Definition MW_C3H8 : num := lit mw_C3H8.

(** Cell 10: [lhv_mass = ( h_reac_mass - h_prod_mass ) / Y_C3H8_reac],
    [lhv_mole = lhv_mass*MW], then both divided by [1000.] (kJ). *)
Definition lhv_mass_J : num := (h_reac_mass - h_prod_mass) / Y_C3H8_reac.
Definition lhv_mole_J : num := lhv_mass_J * MW_C3H8.
Definition lhv_mass : num := lhv_mass_J / lit Lit.c1000.
Definition lhv_mole : num := lhv_mole_J / lit Lit.c1000.

(** Cell 13: [h_fg = ( h_gas - h_liq ) / 1000.] and [hbar_fg = h_fg*MW]. *)
Definition h_fg : num := lit out13.
Definition hbar_fg : num := h_fg * MW_H2O.

(** Cell 14: [m_h2o = N_H2O*MW_H2O / MW_C3H8], with [N_H2O = y/2.] of
    cell 7. *)
Definition m_h2o : num := N_H2O x y z * MW_H2O / MW_C3H8.

(** Cell 15: [hhv_mass = lhv_mass + m_h2o*h_fg], [hhv_mole = hhv_mass*MW]. *)
Definition hhv_mass : num := lhv_mass + m_h2o * h_fg.
Definition hhv_mole : num := hhv_mass * MW_C3H8.

End Cells.

End Worked.

(** ** A library that replays the notebook's propane data

    A test double for evaluating [heating_values] on concrete input: it
    knows one fuel, C3H8, and answers with the values of the worked
    example. *)
Module Propane.

(** The compositions the double distinguishes. *)
Inductive mixture : Type :=
| Unset
| Fresh
| Burnt.

(** Enthalpy of vaporization in J/kg: [Out[13]] times 1000. *)
Definition h_fg_J : Literal :=
  mkLiteral 2442312.0195756946%Q 2442312.0195756946%float.

(** Temperature and pressure of the gas before the call, to be overwritten. *)
Definition T_before : Literal := mkLiteral 1500%Q 1500%float.
Definition P_before : Literal := mkLiteral 2000000%Q 2000000%float.

Section Double.

Context {num : Type} {AR : Arith num}.

Local Open Scope num_scope.
Local Open Scope string_scope.

Definition at_reference (T' P' : num) : bool :=
  eqb T' T_ref && eqb P' P_ref.

Definition equivalence_ratio (phi : num) (fuel oxidizer : string)
  : result mixture :=
  if String.eqb fuel "C3H8" then Ok Fresh
  else Raise (CanteraError "Unknown species").

Definition mole_fractions (d : dict num) : result mixture :=
  match map fst d with
  | ["CO2"; "H2O"; "N2"] => Ok Burnt
  | _ => Raise (CanteraError "Unknown species")
  end.

(** Indices of GRI-Mech 3.0. *)
Definition species_index (name : string) : result nat :=
  if String.eqb name "H2O" then Ok 5%nat
  else if String.eqb name "C3H8" then Ok 50%nat
  else Raise (ValueError "No such species").

Definition Y (m : mixture) (i : nat) : num :=
  match m, i with
  | Fresh, 50%nat => lit Worked.out5
  | _, _ => zero
  end.

Definition enthalpy_mass (T' P' : num) (m : mixture) : num :=
  if at_reference T' P' then
    match m with
    | Fresh => lit Worked.out4
    | Burnt => lit Worked.out9
    | Unset => zero
    end
  else zero.

Definition n_atoms (species element : string) : result num :=
  if String.eqb species "C3H8" then
    if String.eqb element "C" then Ok (lit Worked.out6_x)
    else if String.eqb element "H" then Ok (lit Worked.out6_y)
    else if String.eqb element "O" then Ok (lit Lit.c0_0)
    else Raise (CanteraError "No such element")
  else Raise (CanteraError "No such species").

Definition molecular_weights (i : nat) : num :=
  match i with
  | 5%nat => lit Worked.mw_H2O
  | 50%nat => lit Worked.mw_C3H8
  | _ => one
  end.

Definition water_enthalpy (T' X' : num) : num :=
  if eqb T' T_ref then X' * lit h_fg_J else zero.

Definition cantera : Library num := {|
  composition := mixture;
  lib_check_TP := fun _ _ => Ok tt;
  lib_equivalence_ratio := equivalence_ratio;
  lib_mole_fractions := mole_fractions;
  lib_species_index := species_index;
  lib_Y := Y;
  lib_enthalpy_mass := enthalpy_mass;
  lib_n_atoms := n_atoms;
  lib_molecular_weights := molecular_weights;
  lib_check_TX := fun _ _ => Ok tt;
  lib_water_h := water_enthalpy
|}.

(** The objects before the call: a hot, pressurised gas of some other
    composition, and water at rest. *)
Definition before : World num cantera :=
  mkWorld (mkSolution (lib := cantera) (lit T_before) (lit P_before) Unset)
          (mkWater zero zero).

(** The library's answers for C3H8. *)
Definition answers : Answers cantera :=
  mkAnswers (lib := cantera) Fresh 50%nat (lit Worked.out6_x)
            (lit Worked.out6_y) (lit Lit.c0_0) Burnt 5%nat.

End Double.

(** What [heating_values] returns there, in both readings. *)
Definition returned_float : result (float * float * float * float) :=
  Eval vm_compute in value (heating_values cantera "C3H8" before).

Definition returned_Q : result (Q * Q * Q * Q) :=
  Eval vm_compute in value (heating_values cantera "C3H8" before).

End Propane.

(** ** A library that knows two fuels

    A second test double, for runs of cell 17 over more than one fuel.  For
    C3H8 it answers as [Propane.cantera] does.  For H2 the notebook prints
    only the row of the table, not the enthalpies behind it; the values here
    are stand-ins that give that row to about six digits. *)
Module TwoFuels.

Inductive known : Type :=
| C3H8
| H2.

Inductive mixture : Type :=
| Unset
| Fresh (f : known)
| Burnt (f : known).

(** Stand-ins for hydrogen: mass fraction in the stoichiometric reactants,
    and product enthalpy (J/kg); the reactant enthalpy is taken as zero. *)
Definition Y_H2 : Literal := mkLiteral 0.02852%Q 0.02852%float.
Definition h_prod_H2 : Literal := mkLiteral (-3421254)%Q (-3421254)%float.

(** Molecular weight of H2 in GRI-Mech 3.0 (kg/kmol). *)
Definition mw_H2 : Literal := mkLiteral 2.01588%Q 2.01588%float.

Section Double.

Context {num : Type} {AR : Arith num}.

Local Open Scope num_scope.
Local Open Scope string_scope.

Definition equivalence_ratio (phi : num) (fuel oxidizer : string)
  : result mixture :=
  if String.eqb fuel "C3H8" then Ok (Fresh C3H8)
  else if String.eqb fuel "H2" then Ok (Fresh H2)
  else Raise (CanteraError "Unknown species").

(** Products without CO2 are those of hydrogen. *)
Definition mole_fractions (d : dict num) : result mixture :=
  match d with
  | [(k1, c); (k2, _); (k3, _)] =>
      if String.eqb k1 "CO2" && String.eqb k2 "H2O" && String.eqb k3 "N2"
      then if eqb c zero then Ok (Burnt H2) else Ok (Burnt C3H8)
      else Raise (CanteraError "Unknown species")
  | _ => Raise (CanteraError "Unknown species")
  end.

(** Indices of GRI-Mech 3.0. *)
Definition species_index (name : string) : result nat :=
  if String.eqb name "H2" then Ok 0%nat
  else if String.eqb name "H2O" then Ok 5%nat
  else if String.eqb name "C3H8" then Ok 50%nat
  else Raise (ValueError "No such species").

Definition Y (m : mixture) (i : nat) : num :=
  match m, i with
  | Fresh C3H8, 50%nat => lit Worked.out5
  | Fresh H2, 0%nat => lit Y_H2
  | _, _ => zero
  end.

Definition enthalpy_mass (T' P' : num) (m : mixture) : num :=
  if Propane.at_reference T' P' then
    match m with
    | Fresh C3H8 => lit Worked.out4
    | Burnt C3H8 => lit Worked.out9
    | Fresh H2 => zero
    | Burnt H2 => lit h_prod_H2
    | Unset => zero
    end
  else zero.

Definition n_atoms (species element : string) : result num :=
  if String.eqb species "C3H8" then Propane.n_atoms species element
  else if String.eqb species "H2" then
    if String.eqb element "C" then Ok (lit Lit.c0_0)
    else if String.eqb element "H" then Ok (lit Lit.c2)
    else if String.eqb element "O" then Ok (lit Lit.c0_0)
    else Raise (CanteraError "No such element")
  else Raise (CanteraError "No such species").

Definition molecular_weights (i : nat) : num :=
  match i with
  | 0%nat => lit mw_H2
  | _ => Propane.molecular_weights i
  end.

Definition cantera : Library num := {|
  composition := mixture;
  lib_check_TP := fun _ _ => Ok tt;
  lib_equivalence_ratio := equivalence_ratio;
  lib_mole_fractions := mole_fractions;
  lib_species_index := species_index;
  lib_Y := Y;
  lib_enthalpy_mass := enthalpy_mass;
  lib_n_atoms := n_atoms;
  lib_molecular_weights := molecular_weights;
  lib_check_TX := fun _ _ => Ok tt;
  lib_water_h := Propane.water_enthalpy
|}.

(** The objects before the cell: as in [Propane.before]. *)
Definition before : World num cantera :=
  mkWorld (mkSolution (lib := cantera) (lit Propane.T_before)
                      (lit Propane.P_before) Unset)
          (mkWater zero zero).

(** The library's answers for the two fuels. *)
Definition answers_H2 : Answers cantera :=
  mkAnswers (lib := cantera) (Fresh H2) 0%nat (lit Lit.c0_0) (lit Lit.c2)
            (lit Lit.c0_0) (Burnt H2) 5%nat.

Definition answers_C3H8 : Answers cantera :=
  mkAnswers (lib := cantera) (Fresh C3H8) 50%nat (lit Worked.out6_x)
            (lit Worked.out6_y) (lit Lit.c0_0) (Burnt C3H8) 5%nat.

End Double.

End TwoFuels.

(** ** Literals: the binary64 reading is the decimal, correctly rounded *)

(** The rational a finite binary64 number denotes. *)
Definition Q_of_float (f : float) : option Q :=
  match Prim2SF f with
  | S754_zero _ => Some 0%Q
  | S754_finite s m e =>
      Some ((if s then -1 else 1) * (Zpos m # 1) * Qpower 2 e)%Q
  | _ => None
  end.

(** No neighbouring binary64 number is closer to the decimal. *)
Definition correctly_rounded (l : Literal) : bool :=
  match Q_of_float (binary64 l),
        Q_of_float (next_down (binary64 l)),
        Q_of_float (next_up (binary64 l)) with
  | Some f, Some lo, Some hi =>
      Qle_bool (Qabs (exact l - f)) (Qabs (exact l - lo)) &&
      Qle_bool (Qabs (exact l - f)) (Qabs (exact l - hi))
  | _, _, _ => false
  end.

Definition literals : list Literal :=
  [Lit.c0_0; Lit.c1_0; Lit.c2; Lit.c4; Lit.c3_76; Lit.c298_15; Lit.c1000;
   Lit.one_atm; Worked.out4; Worked.out5; Worked.out6_x; Worked.out6_y;
   Worked.out9; Worked.out13; Worked.mw_H2O; Worked.mw_C3H8;
   Propane.h_fg_J; Propane.T_before; Propane.P_before].

(** The literals of the second test double. *)
Definition literals_two_fuels : list Literal :=
  [TwoFuels.Y_H2; TwoFuels.h_prod_H2; TwoFuels.mw_H2].

(** ** Atom counts in binary64 *)

(** A natural number as a binary64 number. *)
Fixpoint float_of_nat (n : nat) : float :=
  match n with
  | 0%nat => 0%float
  | S k => (float_of_nat k + 1)%float
  end.

(** The two sides of the reaction have equal atom counts, evaluated in
    binary64. *)
Definition balanced_binary64 (x y z : nat) : bool :=
  forallb
    (fun e =>
       PrimFloat.eqb
         (atoms e (reactants (float_of_nat x) (float_of_nat y) (float_of_nat z)))
         (atoms e (products (float_of_nat x) (float_of_nat y) (float_of_nat z))))
    [C; H; O; N].

(** ** The worked example as a program: cells 3 to 15

    The cells act on the objects [gas1] and [water] in the order in which the
    notebook runs them.  The reports printed by [gas1()] and [dir(water)]
    change nothing and are left out. *)
Section WorkedCells.

Context {num : Type} {AR : Arith num}.
Variable lib : Library num.

Local Open Scope num_scope.
Local Open Scope string_scope.

Notation "x <- c ;; k" := (bind c (fun x => k))
  (at level 61, c at next level, right associativity).
Notation "c ;; k" := (bind c (fun _ => k))
  (at level 61, right associativity).

(** Cell 3: [fuel = 'C3H8'] *)
Definition worked_fuel : string := "C3H8".

(** Cell 3: [air = 'O2:1.0, N2:3.76'], written with a comma, unlike the
    string in [heating_values]. *)
Definition worked_air : string := "O2:1.0, N2:3.76".

(** Cell 3: [phi = 1.0] *)
Definition worked_phi : num := lit Lit.c1_0.

(** Cells 3 to 15.  The value is what the names [lhv_mass], [lhv_mole],
    [hhv_mass], [hhv_mole] hold at the end, in kJ. *)
Definition worked_cells : M lib (num * num * num * num) :=
  (* cell 3: gas1.TP = 298.15 , ct.one_atm *)
  gas_set_TP lib (lit Lit.c298_15) (lit Lit.one_atm) ;;
  (* cell 3: gas1.set_equivalence_ratio(phi,fuel,air) *)
  gas_set_equivalence_ratio lib worked_phi worked_fuel worked_air ;;
  (* cell 4: h_reac_mass = gas1.enthalpy_mass *)
  h_reac_mass <- gas_enthalpy_mass lib ;;
  (* cell 5: Y_C3H8_reac = gas1.Y[gas1.species_index('C3H8')] *)
  Y <- gas_Y lib ;;
  i <- gas_species_index lib "C3H8" ;;
  let Y_C3H8_reac := Y i in
  (* cell 6: x, y, z *)
  x <- gas_n_atoms lib worked_fuel "C" ;;
  y <- gas_n_atoms lib worked_fuel "H" ;;
  z <- gas_n_atoms lib worked_fuel "O" ;;
  (* cells 7 and 8: gas1.TPX = None , None , X_prod *)
  gas_set_TPX lib None None (X_prod x y z) ;;
  (* cell 9: h_prod_mass = gas1.enthalpy_mass *)
  h_prod_mass <- gas_enthalpy_mass lib ;;
  (* cell 10: lhv_mass = ( h_reac_mass - h_prod_mass ) / Y_C3H8_reac *)
  let lhv_mass := (h_reac_mass - h_prod_mass) / Y_C3H8_reac in
  (* cell 10: lhv_mole = lhv_mass*gas1.molecular_weights[...('C3H8')] *)
  mw <- gas_molecular_weights lib ;;
  i1 <- gas_species_index lib "C3H8" ;;
  let lhv_mole := lhv_mass * mw i1 in
  (* cell 10: lhv_mass = lhv_mass / 1000. ; lhv_mole = lhv_mole / 1000. *)
  let lhv_mass := lhv_mass / lit Lit.c1000 in
  let lhv_mole := lhv_mole / lit Lit.c1000 in
  (* cell 13: water.TX = 298.15, 0.0 ; h_liq = water.h *)
  water_set_TX lib (lit Lit.c298_15) (lit Lit.c0_0) ;;
  h_liq <- water_h lib ;;
  (* cell 13: water.TX = 298.15, 1.0 ; h_gas = water.h *)
  water_set_TX lib (lit Lit.c298_15) (lit Lit.c1_0) ;;
  h_gas <- water_h lib ;;
  (* cell 13: h_fg = ( h_gas - h_liq ) / 1000. *)
  let h_fg := (h_gas - h_liq) / lit Lit.c1000 in
  (* cell 13: hbar_fg = h_fg*gas1.molecular_weights[...('H2O')] *)
  mw1 <- gas_molecular_weights lib ;;
  iw <- gas_species_index lib "H2O" ;;
  let hbar_fg := h_fg * mw1 iw in
  (* cell 14: m_h2o = N_H2O*gas1.molecular_weights[...('H2O')]
                      / gas1.molecular_weights[...('C3H8')] *)
  mw2 <- gas_molecular_weights lib ;;
  iw1 <- gas_species_index lib "H2O" ;;
  mw3 <- gas_molecular_weights lib ;;
  i2 <- gas_species_index lib "C3H8" ;;
  let m_h2o := N_H2O x y z * mw2 iw1 / mw3 i2 in
  (* cell 15: hhv_mass = lhv_mass + m_h2o*h_fg *)
  let hhv_mass := lhv_mass + m_h2o * h_fg in
  (* cell 15: hhv_mole = hhv_mass*gas1.molecular_weights[...('C3H8')] *)
  mw4 <- gas_molecular_weights lib ;;
  i3 <- gas_species_index lib "C3H8" ;;
  let hhv_mole := hhv_mass * mw4 i3 in
  ret (lhv_mass, lhv_mole, hhv_mass, hhv_mole).

End WorkedCells.

Arguments worked_phi {num AR}.
Arguments worked_cells {num AR} lib _.

(** ** Cell 17: the table of heating values

    The cell fills the array [hvs] row by row and prints one line per fuel.
    An exception ends the cell; the rows stored and the lines printed until
    then stay. *)
Section Cell17.

Context {num : Type} {AR : Arith num}.
Variable lib : Library num.

Local Open Scope num_scope.
Local Open Scope string_scope.

(** What ends a cell early: an exception of the library, or numpy's
    [IndexError]. *)
Inductive cell_exn : Type :=
| LibraryError (e : exn)
| IndexError.

Inductive outcome (A : Type) : Type :=
| Done (a : A)
| Stopped (e : cell_exn).

(** [fuels  = ['H2', 'CH4', 'C2H6', 'C3H8', 'C2H2', 'CH3OH']] *)
Definition fuels : list string :=
  ["H2"; "CH4"; "C2H6"; "C3H8"; "C2H2"; "CH3OH"].

(** One row of [hvs]. *)
Definition row : Type := (num * num * num * num)%type.

(** [np.zeros(shape=(nfuels,4))] *)
Definition zeros (nfuels : nat) : list row :=
  repeat (zero, zero, zero, zero) nfuels.

(** [hvs[i,:] = r]; an index beyond the last row is numpy's [IndexError]. *)
Fixpoint assign_row (i : nat) (r : row) (hvs : list row)
  : option (list row) :=
  match hvs, i with
  | [], _ => None
  | _ :: rest, 0%nat => Some (r :: rest)
  | r0 :: rest, S k =>
      match assign_row k r rest with
      | Some rest' => Some (r0 :: rest')
      | None => None
      end
  end.

Definition header1 : string :=
  "Fuel            LHV            LHV            HHV             HHV".

Definition header2 : string :=
  "Type          (kJ/kg)       (kJ/kmol)       (kJ/kg)        (kJ/kmol)".

Fixpoint spaces (n : nat) : string :=
  match n with
  | 0%nat => ""
  | S k => " " ++ spaces k
  end.

(** [' {:60s}'.format(s)]: a space, then [s] padded on the right to 60
    characters. *)
Definition format_60s (s : string) : string :=
  " " ++ s ++ spaces (60 - String.length s).

(** A printed line: a text, or the line
    [' {:8s} {:15f} {:15f}{:15f} {:15f}'.format(fueli, a, b, c, d)], kept as
    the arguments handed to [format]. *)
Inductive line : Type :=
| Text (s : string)
| Values (fueli : string) (a b c d : num).

(** The line printed for a fuel from its row of [hvs]: each entry divided
    by [1000.]. *)
Definition printed (fueli : string) (r : row) : line :=
  let '(a, b, c, d) := r in
  Values fueli (a / lit Lit.c1000) (b / lit Lit.c1000)
         (c / lit Lit.c1000) (d / lit Lit.c1000).

(** [for i , fueli in enumerate(fuels)]: the rest of the loop from index
    [i] on. *)
Fixpoint fuel_loop (i : nat) (todo : list string) (hvs : list row)
    (out : list line) (w : World num lib)
  : list row * list line * outcome (World num lib) :=
  match todo with
  | [] => (hvs, out, Done _ w)
  | fueli :: rest =>
      (* hvs[i,:] = heating_values(fueli) *)
      match heating_values lib fueli w with
      | Raise e => (hvs, out, Stopped _ (LibraryError e))
      | Ok (r, w1) =>
          match assign_row i r hvs with
          | None => (hvs, out, Stopped _ IndexError)
          | Some hvs1 =>
              (* print(... hvs[i,0]/1000., ... hvs[i,3]/1000.) *)
              match nth_error hvs1 i with
              | None => (hvs1, out, Stopped _ IndexError)
              | Some ri => fuel_loop (S i) rest hvs1 (out ++ [printed fueli ri]) w1
              end
          end
      end
  end.

(** Cell 17 from the definition of [hvs] on, for a list of fuels: the final
    [hvs], the lines printed, and how the cell ended. *)
Definition cell17 (fuels : list string) (w : World num lib)
  : list row * list line * outcome (World num lib) :=
  let nfuels := List.length fuels in
  let hvs := zeros nfuels in
  fuel_loop 0 fuels hvs [Text (format_60s header1); Text (format_60s header2)] w.

(** The lines of a table: one per fuel and row. *)
Definition table_lines (fuels : list string) (rows : list row) : list line :=
  map (fun fr => printed (fst fr) (snd fr)) (combine fuels rows).

(** What a fuel's row is: the values [heating_values] returns for it,
    whatever state the objects are in. *)
Definition row_of (fueli : string) (r : row) : Prop :=
  forall w0 : World num lib, value (heating_values lib fueli w0) = Ok r.

End Cell17.

Arguments Done {A} a.
Arguments Stopped {A} e.
Arguments row num : clear implicits.
Arguments zeros {num AR} nfuels.
Arguments assign_row {num} i r hvs.
Arguments line num : clear implicits.
Arguments Text {num} s.
Arguments Values {num} fueli a b c d.
Arguments printed {num AR} fueli r.
Arguments fuel_loop {num AR} lib i todo hvs out w.
Arguments cell17 {num AR} lib fuels w.
Arguments table_lines {num AR} fuels rows.
Arguments row_of {num AR} lib fueli r.

(** ** Mass of a mixture *)
Section Mass.

Context {num : Type} {AR : Arith num}.

Local Open Scope num_scope.

(** Molecular weight of a molecule for given atomic weights. *)
Definition weight_of (wt : element -> num) (f : formula) : num :=
  f C * wt C + f H * wt H + f O * wt O + f N * wt N.

(** Mass of a mixture given by mole numbers. *)
Fixpoint mass (wt : element -> num) (side : list (num * formula (num := num)))
  : num :=
  match side with
  | [] => zero
  | (n, f) :: rest => n * weight_of wt f + mass wt rest
  end.

End Mass.

(** ** The first call of the routine that raises

    The library calls of [heating_values fuel], in the order in which the
    routine makes them.  [first_failure fuel e]: the calls before one of
    them return, and that one raises [e]. *)
Section FirstFailure.

Context {num : Type} {AR : Arith num}.
Variable lib : Library num.

Local Open Scope string_scope.

Inductive first_failure (fuel : string) (e : exn) : Prop :=
| fails_TP :
    lib_check_TP lib T_ref P_ref = Raise e ->
    first_failure fuel e
| fails_set_equivalence_ratio :
    lib_check_TP lib T_ref P_ref = Ok tt ->
    lib_equivalence_ratio lib (lit Lit.c1_0) fuel air = Raise e ->
    first_failure fuel e
| fails_species_index (Xr : composition lib) :
    lib_check_TP lib T_ref P_ref = Ok tt ->
    lib_equivalence_ratio lib (lit Lit.c1_0) fuel air = Ok Xr ->
    lib_species_index lib fuel = Raise e ->
    first_failure fuel e
| fails_n_atoms_C (Xr : composition lib) (i : nat) :
    lib_check_TP lib T_ref P_ref = Ok tt ->
    lib_equivalence_ratio lib (lit Lit.c1_0) fuel air = Ok Xr ->
    lib_species_index lib fuel = Ok i ->
    lib_n_atoms lib fuel "C" = Raise e ->
    first_failure fuel e
| fails_n_atoms_H (Xr : composition lib) (i : nat) (x : num) :
    lib_check_TP lib T_ref P_ref = Ok tt ->
    lib_equivalence_ratio lib (lit Lit.c1_0) fuel air = Ok Xr ->
    lib_species_index lib fuel = Ok i ->
    lib_n_atoms lib fuel "C" = Ok x ->
    lib_n_atoms lib fuel "H" = Raise e ->
    first_failure fuel e
| fails_n_atoms_O (Xr : composition lib) (i : nat) (x y : num) :
    lib_check_TP lib T_ref P_ref = Ok tt ->
    lib_equivalence_ratio lib (lit Lit.c1_0) fuel air = Ok Xr ->
    lib_species_index lib fuel = Ok i ->
    lib_n_atoms lib fuel "C" = Ok x ->
    lib_n_atoms lib fuel "H" = Ok y ->
    lib_n_atoms lib fuel "O" = Raise e ->
    first_failure fuel e
| fails_TPX (Xr : composition lib) (i : nat) (x y z : num) :
    lib_check_TP lib T_ref P_ref = Ok tt ->
    lib_equivalence_ratio lib (lit Lit.c1_0) fuel air = Ok Xr ->
    lib_species_index lib fuel = Ok i ->
    lib_n_atoms lib fuel "C" = Ok x ->
    lib_n_atoms lib fuel "H" = Ok y ->
    lib_n_atoms lib fuel "O" = Ok z ->
    lib_mole_fractions lib (X_prod x y z) = Raise e ->
    first_failure fuel e
| fails_TX_liquid (Xr Xp : composition lib) (i : nat) (x y z : num) :
    lib_check_TP lib T_ref P_ref = Ok tt ->
    lib_equivalence_ratio lib (lit Lit.c1_0) fuel air = Ok Xr ->
    lib_species_index lib fuel = Ok i ->
    lib_n_atoms lib fuel "C" = Ok x ->
    lib_n_atoms lib fuel "H" = Ok y ->
    lib_n_atoms lib fuel "O" = Ok z ->
    lib_mole_fractions lib (X_prod x y z) = Ok Xp ->
    lib_check_TX lib T_ref (lit Lit.c0_0) = Raise e ->
    first_failure fuel e
| fails_TX_vapor (Xr Xp : composition lib) (i : nat) (x y z : num) :
    lib_check_TP lib T_ref P_ref = Ok tt ->
    lib_equivalence_ratio lib (lit Lit.c1_0) fuel air = Ok Xr ->
    lib_species_index lib fuel = Ok i ->
    lib_n_atoms lib fuel "C" = Ok x ->
    lib_n_atoms lib fuel "H" = Ok y ->
    lib_n_atoms lib fuel "O" = Ok z ->
    lib_mole_fractions lib (X_prod x y z) = Ok Xp ->
    lib_check_TX lib T_ref (lit Lit.c0_0) = Ok tt ->
    lib_check_TX lib T_ref (lit Lit.c1_0) = Raise e ->
    first_failure fuel e
| fails_species_index_H2O (Xr Xp : composition lib) (i : nat) (x y z : num) :
    lib_check_TP lib T_ref P_ref = Ok tt ->
    lib_equivalence_ratio lib (lit Lit.c1_0) fuel air = Ok Xr ->
    lib_species_index lib fuel = Ok i ->
    lib_n_atoms lib fuel "C" = Ok x ->
    lib_n_atoms lib fuel "H" = Ok y ->
    lib_n_atoms lib fuel "O" = Ok z ->
    lib_mole_fractions lib (X_prod x y z) = Ok Xp ->
    lib_check_TX lib T_ref (lit Lit.c0_0) = Ok tt ->
    lib_check_TX lib T_ref (lit Lit.c1_0) = Ok tt ->
    lib_species_index lib "H2O" = Raise e ->
    first_failure fuel e.

End FirstFailure.

Arguments first_failure {num AR} lib fuel e.

(** * Properties *)

Lemma literals_correctly_rounded : forallb correctly_rounded literals = true.
Proof. vm_compute. reflexivity. Qed.

Lemma literals_two_fuels_correctly_rounded :
  forallb correctly_rounded literals_two_fuels = true.
Proof. vm_compute. reflexivity. Qed.

(** ** Runs of [heating_values] *)
Section Runs.

Context {num : Type} {AR : Arith num}.
Variable lib : Library num.

Local Open Scope num_scope.
Local Open Scope string_scope.

(** *** Inversion of the monad and of the object operations *)

Lemma bind_Ok {A B : Type} (c : M lib A) (k : A -> M lib B)
    (w w' : World num lib) (b : B) :
  bind c k w = Ok (b, w') ->
  exists a w1, c w = Ok (a, w1) /\ k a w1 = Ok (b, w').
Proof.
  unfold bind. destruct (c w) as [[a w1]|e]; [|discriminate].
  intros E. exists a, w1. split; [reflexivity|exact E].
Qed.

Lemma bind_Raise {A B : Type} (c : M lib A) (k : A -> M lib B)
    (w : World num lib) (e : exn) :
  bind c k w = Raise e ->
  c w = Raise e \/ exists a w1, c w = Ok (a, w1) /\ k a w1 = Raise e.
Proof.
  unfold bind. destruct (c w) as [[a w1]|e0].
  - intros E. right. exists a, w1. split; [reflexivity|exact E].
  - intros E. left. injection E as ->. reflexivity.
Qed.

Lemma call_Ok {A : Type} (r : result A) (w w' : World num lib) (a : A) :
  call r w = Ok (a, w') -> r = Ok a /\ w' = w.
Proof.
  unfold call. destruct r; [|discriminate].
  intros E. injection E as -> ->. split; reflexivity.
Qed.

Lemma call_Raise {A : Type} (r : result A) (w : World num lib) (e : exn) :
  call r w = Raise e -> r = Raise e.
Proof.
  unfold call. destruct r; [discriminate|].
  intros E. injection E as ->. reflexivity.
Qed.

Lemma gas_set_TP_Ok (T' P' : num) (w w' : World num lib) (u : unit) :
  gas_set_TP lib T' P' w = Ok (u, w') ->
  lib_check_TP lib T' P' = Ok tt /\
  w' = mkWorld (mkSolution T' P' (X (gas w))) (water w).
Proof.
  unfold gas_set_TP.
  destruct (lib_check_TP lib T' P') as [[]|]; [|discriminate].
  intros E. injection E as _ <-. split; reflexivity.
Qed.

Lemma gas_set_equivalence_ratio_Ok (phi : num) (fuel oxidizer : string)
    (w w' : World num lib) (u : unit) :
  gas_set_equivalence_ratio lib phi fuel oxidizer w = Ok (u, w') ->
  exists X', lib_equivalence_ratio lib phi fuel oxidizer = Ok X' /\
    w' = mkWorld (mkSolution (T (gas w)) (P (gas w)) X') (water w).
Proof.
  unfold gas_set_equivalence_ratio.
  destruct (lib_equivalence_ratio lib phi fuel oxidizer) as [X'|];
    [|discriminate].
  intros E. injection E as _ <-. exists X'. split; reflexivity.
Qed.

(** Setting the composition alone holds temperature, pressure and the
    water object. *)
Lemma gas_set_TPX_None_Ok (X' : dict num) (w w' : World num lib) (u : unit) :
  gas_set_TPX lib None None X' w = Ok (u, w') ->
  exists Xn, lib_mole_fractions lib X' = Ok Xn /\
    w' = mkWorld (mkSolution (T (gas w)) (P (gas w)) Xn) (water w).
Proof.
  unfold gas_set_TPX.
  destruct (lib_mole_fractions lib X') as [Xn|]; [|discriminate].
  intros E. injection E as _ <-. exists Xn. split; reflexivity.
Qed.

Lemma water_set_TX_Ok (T' X' : num) (w w' : World num lib) (u : unit) :
  water_set_TX lib T' X' w = Ok (u, w') ->
  lib_check_TX lib T' X' = Ok tt /\ w' = mkWorld (gas w) (mkWater T' X').
Proof.
  unfold water_set_TX.
  destruct (lib_check_TX lib T' X') as [[]|]; [|discriminate].
  intros E. injection E as _ <-. split; reflexivity.
Qed.

Lemma gas_set_TP_Raise (T' P' : num) (w : World num lib) (e : exn) :
  gas_set_TP lib T' P' w = Raise e -> lib_check_TP lib T' P' = Raise e.
Proof.
  unfold gas_set_TP. destruct (lib_check_TP lib T' P'); [discriminate|].
  intros E. injection E as ->. reflexivity.
Qed.

Lemma gas_set_equivalence_ratio_Raise (phi : num) (fuel oxidizer : string)
    (w : World num lib) (e : exn) :
  gas_set_equivalence_ratio lib phi fuel oxidizer w = Raise e ->
  lib_equivalence_ratio lib phi fuel oxidizer = Raise e.
Proof.
  unfold gas_set_equivalence_ratio.
  destruct (lib_equivalence_ratio lib phi fuel oxidizer); [discriminate|].
  intros E. injection E as ->. reflexivity.
Qed.

Lemma gas_set_TPX_None_Raise (X' : dict num) (w : World num lib) (e : exn) :
  gas_set_TPX lib None None X' w = Raise e ->
  lib_mole_fractions lib X' = Raise e.
Proof.
  unfold gas_set_TPX. destruct (lib_mole_fractions lib X'); [discriminate|].
  intros E. injection E as ->. reflexivity.
Qed.

Lemma water_set_TX_Raise (T' X' : num) (w : World num lib) (e : exn) :
  water_set_TX lib T' X' w = Raise e -> lib_check_TX lib T' X' = Raise e.
Proof.
  unfold water_set_TX. destruct (lib_check_TX lib T' X'); [discriminate|].
  intros E. injection E as ->. reflexivity.
Qed.

(** One step of a successful run: split the first operation off and invert
    it. *)
Ltac run_step E :=
  let a := fresh "a" in
  let w1 := fresh "w" in
  let E1 := fresh "E" in
  apply bind_Ok in E; destruct E as (a & w1 & E1 & E);
  first
    [ apply gas_set_TP_Ok in E1; destruct E1 as [? ->]
    | apply gas_set_equivalence_ratio_Ok in E1; destruct E1 as (? & ? & ->)
    | apply gas_set_TPX_None_Ok in E1; destruct E1 as (? & ? & ->)
    | apply water_set_TX_Ok in E1; destruct E1 as [? ->]
    | apply call_Ok in E1; destruct E1 as [? ->]
    | unfold gas_Y, gas_enthalpy_mass, gas_molecular_weights, water_h, ret
        in E1;
      injection E1 as <- <- ];
  cbn [gas water T P X water_T water_X] in *.

(** One step of a failing run: either the first operation raised, and the
    exception is the library's, or it returned and the rest raised. *)
Ltac raise_step E :=
  let a := fresh "a" in
  let w1 := fresh "w" in
  let E1 := fresh "E" in
  apply bind_Raise in E; destruct E as [E | (a & w1 & E1 & E)];
  [ first
      [ apply gas_set_TP_Raise in E; apply raises_TP; exact E
      | apply gas_set_equivalence_ratio_Raise in E;
        apply raises_set_equivalence_ratio; exact E
      | apply gas_set_TPX_None_Raise in E; eapply raises_TPX; exact E
      | apply water_set_TX_Raise in E; eapply raises_TX; exact E
      | apply call_Raise in E;
        first [ eapply raises_species_index; exact E
              | eapply raises_n_atoms; exact E ]
      | discriminate E ]
  | clear E1 ].

(** Cases on the library's answers, in call order. *)
Ltac by_answers :=
  repeat match goal with
         | |- context [match ?c with Ok _ => _ | Raise _ => _ end] =>
             lazymatch c with
             | context [match _ with Ok _ => _ | Raise _ => _ end] => fail
             | _ => destruct c as [[]|] || destruct c
             end; cbn
         end.

(** One step of a failing run that keeps what the calls before returned. *)
Ltac fail_step E :=
  let a := fresh "a" in
  let w1 := fresh "w" in
  let E1 := fresh "E" in
  apply bind_Raise in E; destruct E as [E | (a & w1 & E1 & E)];
  [ first
      [ apply gas_set_TP_Raise in E
      | apply gas_set_equivalence_ratio_Raise in E
      | apply gas_set_TPX_None_Raise in E
      | apply water_set_TX_Raise in E
      | apply call_Raise in E
      | discriminate E ]
  | first
      [ apply gas_set_TP_Ok in E1; destruct E1 as [? ->]
      | apply gas_set_equivalence_ratio_Ok in E1; destruct E1 as (? & ? & ->)
      | apply gas_set_TPX_None_Ok in E1; destruct E1 as (? & ? & ->)
      | apply water_set_TX_Ok in E1; destruct E1 as [? ->]
      | apply call_Ok in E1; destruct E1 as [? ->]
      | unfold gas_Y, gas_enthalpy_mass, gas_molecular_weights, water_h, ret
          in E1;
        injection E1 as <- <- ];
    cbn [gas water T P X water_T water_X] in * ].

(** The call that raised is the first failure, or it had returned before. *)
Ltac failed E :=
  first
    [ congruence
    | solve [apply fails_TP; exact E]
    | solve [eapply fails_set_equivalence_ratio; eassumption]
    | solve [eapply fails_species_index; eassumption]
    | solve [eapply fails_n_atoms_C; eassumption]
    | solve [eapply fails_n_atoms_H; eassumption]
    | solve [eapply fails_n_atoms_O; eassumption]
    | solve [eapply fails_TPX; eassumption]
    | solve [eapply fails_TX_liquid; eassumption]
    | solve [eapply fails_TX_vapor; eassumption]
    | solve [eapply fails_species_index_H2O; eassumption] ].

(** *** A successful run, in terms of the library's answers *)

Lemma heating_values_Ok (fuel : string) (w w' : World num lib)
    (r : num * num * num * num) :
  heating_values lib fuel w = Ok (r, w') ->
  exists o : Answers lib,
    answered lib fuel o /\
    r = (lhv_mass o, lhv_mass o * MW_fuel o,
         hhv_mass o, hhv_mass o * MW_fuel o) /\
    w' = final_world o.
Proof.
  intros E. unfold heating_values in E.
  repeat run_step E.
  unfold ret in E. injection E as <- <-.
  repeat match goal with
         | E1 : ?c = Ok ?i, E2 : ?c = Ok ?j |- _ =>
             rewrite E1 in E2; injection E2 as <-
         end.
  eexists (mkAnswers _ _ _ _ _ _ _).
  unfold answered; cbn [X_reac i_fuel n_C n_H n_O X_burnt i_H2O].
  repeat split; try eassumption; reflexivity.
Qed.

(** Conversely, when the library answers every call, the routine returns. *)
Lemma heating_values_answered (fuel : string) (w : World num lib)
    (o : Answers lib) :
  answered lib fuel o ->
  heating_values lib fuel w =
  Ok ((lhv_mass o, lhv_mass o * MW_fuel o, hhv_mass o, hhv_mass o * MW_fuel o),
      final_world o).
Proof.
  intros (E1 & E2 & E3 & E4 & E5 & E6 & E7 & E8 & E9 & E10).
  unfold heating_values, bind, gas_set_TP, gas_set_equivalence_ratio,
    gas_set_TPX, gas_Y, gas_species_index, gas_enthalpy_mass, gas_n_atoms,
    gas_molecular_weights, water_set_TX, water_h, call, ret.
  rewrite E1, E2, E3, E4, E5, E6, E7, E9, E10, E8. reflexivity.
Qed.

(** The library's answers are determined by the fuel. *)
Lemma answered_unique (fuel : string) (o1 o2 : Answers lib) :
  answered lib fuel o1 -> answered lib fuel o2 -> o1 = o2.
Proof.
  destruct o1 as [a1 b1 c1 d1 e1 f1 g1], o2 as [a2 b2 c2 d2 e2 f2 g2].
  unfold answered; cbn.
  intros (_ & A1 & A2 & A3 & A4 & A5 & A6 & A7 & _)
         (_ & B1 & B2 & B3 & B4 & B5 & B6 & B7 & _).
  rewrite A1 in B1; injection B1 as <-.
  rewrite A2 in B2; injection B2 as <-.
  rewrite A3 in B3; injection B3 as <-.
  rewrite A4 in B4; injection B4 as <-.
  rewrite A5 in B5; injection B5 as <-.
  rewrite A6 in B6; injection B6 as <-.
  rewrite A7 in B7; injection B7 as <-.
  reflexivity.
Qed.
(** *** Properties of the routine, for every library and both readings of
    numbers *)

(** C2.  When [heating_values fuel] returns, its first component, the lower
    heating value per unit mass of fuel, is the reactant mixture enthalpy per
    unit mass minus the product mixture enthalpy per unit mass, divided by
    the mass fraction of the fuel in the reactants; the library is asked for
    both enthalpies at the same temperature [T_ref] (298.15 K) and pressure
    [P_ref] (1 atm), once for the stoichiometric fuel-air composition and
    once for the product composition.  No sign condition on the mass
    fraction is needed. *)
Theorem lhv_mass_enthalpy_difference (fuel : string) (w w' : World num lib)
    (lm lmol hm hmol : num) :
  heating_values lib fuel w = Ok ((lm, lmol, hm, hmol), w') ->
  exists o : Answers lib,
    answered lib fuel o /\
    lm = (lib_enthalpy_mass lib T_ref P_ref (X_reac o)
          - lib_enthalpy_mass lib T_ref P_ref (X_burnt o))
         / lib_Y lib (X_reac o) (i_fuel o).
Proof.
  intros E. apply heating_values_Ok in E. destruct E as (o & A & E & _).
  exists o. split; [exact A|].
  injection E as -> _ _ _. reflexivity.
Qed.

(** C4.  The higher heating value per unit mass is the lower one plus
    [m_h2o * h_fg]: [m_h2o] is the product water per mole of fuel, [y/2],
    times the molecular weight of H2O over that of the fuel, and [h_fg] is
    read from the separate water object, as its enthalpy at the reference
    temperature with vapor fraction one minus its enthalpy there with vapor
    fraction zero.  The water object is left in the state set last. *)
Theorem hhv_mass_adds_vaporization (fuel : string) (w w' : World num lib)
    (lm lmol hm hmol : num) :
  heating_values lib fuel w = Ok ((lm, lmol, hm, hmol), w') ->
  exists o : Answers lib,
    answered lib fuel o /\
    hm = lm
         + (n_H o / lit Lit.c2) * lib_molecular_weights lib (i_H2O o)
           / lib_molecular_weights lib (i_fuel o)
           * (lib_water_h lib T_ref (lit Lit.c1_0)
              - lib_water_h lib T_ref (lit Lit.c0_0)) /\
    water w' = mkWater T_ref (lit Lit.c1_0).
Proof.
  intros E. apply heating_values_Ok in E. destruct E as (o & A & E & ->).
  exists o. split; [exact A|].
  injection E as -> _ -> _. split; reflexivity.
Qed.

(** C6.  The statement that sets the product composition leaves temperature
    and pressure as the reactant statements set them: after
    [gas.TP = T_ref, P_ref] and [set_equivalence_ratio] the gas is at
    [T_ref], [P_ref]; [gas.TPX = None, None, X_prod] run from there changes
    neither; the gas state it produces is the one the routine ends in; and
    the product enthalpy read in it is the library's value at [T_ref],
    [P_ref], like the reactant enthalpy. *)
Theorem product_state_keeps_T_P (fuel : string) (w w' : World num lib)
    (r : num * num * num * num) :
  heating_values lib fuel w = Ok (r, w') ->
  exists (o : Answers lib) (w1 w2 : World num lib),
    answered lib fuel o /\
    set_reactants lib fuel w = Ok (tt, w1) /\
    T (gas w1) = T_ref /\ P (gas w1) = P_ref /\
    set_products lib (n_C o) (n_H o) (n_O o) w1 = Ok (tt, w2) /\
    T (gas w2) = T (gas w1) /\ P (gas w2) = P (gas w1) /\
    gas w' = gas w2 /\
    gas_enthalpy_mass lib w1 =
      Ok (lib_enthalpy_mass lib T_ref P_ref (X_reac o), w1) /\
    gas_enthalpy_mass lib w2 =
      Ok (lib_enthalpy_mass lib T_ref P_ref (X_burnt o), w2).
Proof.
  intros E. apply heating_values_Ok in E. destruct E as (o & A & _ & ->).
  pose proof A as (E1 & E2 & _ & _ & _ & _ & E7 & _).
  exists o,
    (mkWorld (mkSolution T_ref P_ref (X_reac o)) (water w)),
    (mkWorld (mkSolution T_ref P_ref (X_burnt o)) (water w)).
  split; [exact A|].
  unfold set_reactants, set_products, bind, gas_set_TP,
    gas_set_equivalence_ratio, gas_set_TPX, gas_enthalpy_mass.
  rewrite E1, E2. cbn. rewrite E7.
  repeat split.
Qed.

(** C7.  The routine returns four numbers, and the two per-mole values are
    the per-mass values times the molecular weight of the fuel species. *)
Theorem mole_values_scale_by_MW (fuel : string) (w w' : World num lib)
    (lm lmol hm hmol : num) :
  heating_values lib fuel w = Ok ((lm, lmol, hm, hmol), w') ->
  exists i : nat,
    lib_species_index lib fuel = Ok i /\
    lmol = lm * lib_molecular_weights lib i /\
    hmol = hm * lib_molecular_weights lib i.
Proof.
  intros E. apply heating_values_Ok in E. destruct E as (o & A & E & _).
  destruct A as (_ & _ & A & _).
  exists (i_fuel o). split; [exact A|].
  injection E as -> -> -> ->. split; reflexivity.
Qed.

(** C8.  The routine has no validation and no handler of its own.  A call
    raises [e] exactly when, of the library calls it makes in order, the
    first one that raises raises [e]: an exception of the library reaches
    the caller, and reaches it unchanged; and the routine raises nothing
    that the library did not raise.  It returns exactly when the library
    answers every call.  This holds for every fuel name, known to the
    library or not, with or without other elements than C, H and O. *)
Theorem heating_values_propagates_library_errors (fuel : string)
    (w : World num lib) :
  (forall e : exn,
     first_failure lib fuel e <-> heating_values lib fuel w = Raise e) /\
  ((exists o : Answers lib, answered lib fuel o) <->
   (exists r w', heating_values lib fuel w = Ok (r, w'))).
Proof.
  split; [intros e; split|split].
  - intros F.
    unfold heating_values, bind, gas_set_TP, gas_set_equivalence_ratio,
      gas_set_TPX, gas_Y, gas_species_index, gas_enthalpy_mass, gas_n_atoms,
      gas_molecular_weights, water_set_TX, water_h, call, ret.
    destruct F;
      repeat match goal with
             | E : ?c = _ |- context [?c] => rewrite E; cbn
             end;
      reflexivity.
  - intros E. unfold heating_values in E.
    repeat fail_step E; try failed E.
    discriminate E.
  - intros [o A]. eexists _, _. exact (heating_values_answered fuel w o A).
  - intros (r & w' & E). apply heating_values_Ok in E.
    destruct E as (o & A & _). exists o. exact A.
Qed.

(** C9.  What the routine returns, values or exception, does not depend on
    the state the objects are in before the call: temperature, pressure and
    composition are set before anything is read. *)
Theorem heating_values_independent_of_initial_state (fuel : string)
    (w1 w2 : World num lib) :
  value (heating_values lib fuel w1) = value (heating_values lib fuel w2).
Proof.
  unfold heating_values, bind, gas_set_TP, gas_set_equivalence_ratio,
    gas_set_TPX, gas_Y, gas_species_index, gas_enthalpy_mass, gas_n_atoms,
    gas_molecular_weights, water_set_TX, water_h, call, ret, value.
  cbn. by_answers; reflexivity.
Qed.

(** C10.  After a call that returns, the gas object is in the product state:
    the composition made from CO2, H2O and N2 in the mole numbers [X_prod],
    at the reference temperature and pressure.  The state before the call is
    not put back: unless the gas already was in that state, it has
    changed. *)
Theorem gas_left_in_product_state (fuel : string) (w w' : World num lib)
    (r : num * num * num * num) :
  heating_values lib fuel w = Ok (r, w') ->
  exists o : Answers lib,
    answered lib fuel o /\
    lib_mole_fractions lib
      [("CO2", n_C o); ("H2O", n_H o / lit Lit.c2);
       ("N2", lit Lit.c3_76 * (n_C o + n_H o / lit Lit.c4
                               - n_O o / lit Lit.c2))]
      = Ok (X_burnt o) /\
    gas w' = mkSolution T_ref P_ref (X_burnt o) /\
    (gas w <> mkSolution T_ref P_ref (X_burnt o) -> gas w' <> gas w).
Proof.
  intros E. apply heating_values_Ok in E. destruct E as (o & A & _ & ->).
  exists o. split; [exact A|].
  destruct A as (_ & _ & _ & _ & _ & _ & A & _).
  split; [exact A|]. split; [reflexivity|].
  cbn. intros D E. apply D. symmetry. exact E.
Qed.

(** *** Helpers for callers of the routine *)

(** The value of a run does not depend on the state it starts from. *)
Lemma run_value_any (fuel : string) (w1 w2 : World num lib) :
  value (heating_values lib fuel w1) = value (heating_values lib fuel w2).
Proof.
  unfold heating_values, bind, gas_set_TP, gas_set_equivalence_ratio,
    gas_set_TPX, gas_Y, gas_species_index, gas_enthalpy_mass, gas_n_atoms,
    gas_molecular_weights, water_set_TX, water_h, call, ret, value.
  cbn. by_answers; reflexivity.
Qed.

Lemma run_Raise_library (fuel : string) (w : World num lib) (e : exn) :
  heating_values lib fuel w = Raise e -> library_raises lib fuel e.
Proof.
  intros E. unfold heating_values in E.
  repeat raise_step E.
  discriminate E.
Qed.

Lemma run_Ok_row (fuel : string) (w w' : World num lib) (r : row num) :
  heating_values lib fuel w = Ok (r, w') -> row_of lib fuel r.
Proof.
  intros E w0. rewrite (run_value_any fuel w0 w), E. reflexivity.
Qed.

Lemma run_Raise_any (fuel : string) (w : World num lib) (e : exn) :
  heating_values lib fuel w = Raise e ->
  forall w0, value (heating_values lib fuel w0) = Raise e.
Proof.
  intros E w0. rewrite (run_value_any fuel w0 w), E. reflexivity.
Qed.

(** *** The worked example against the routine *)

Lemma worked_cells_Ok (w w' : World num lib) (r : num * num * num * num) :
  worked_cells lib w = Ok (r, w') ->
  exists o : Answers lib,
    lib_equivalence_ratio lib (lit Lit.c1_0) "C3H8" worked_air
      = Ok (X_reac o) /\
    (lib_equivalence_ratio lib (lit Lit.c1_0) "C3H8" air = Ok (X_reac o) ->
     answered lib "C3H8" o) /\
    r = (lhv_mass o / lit Lit.c1000,
         lhv_mass o * MW_fuel o / lit Lit.c1000,
         lhv_mass o / lit Lit.c1000 + m_h2o o * (h_fg lib / lit Lit.c1000),
         (lhv_mass o / lit Lit.c1000 + m_h2o o * (h_fg lib / lit Lit.c1000))
         * MW_fuel o) /\
    w' = final_world o.
Proof.
  intros E. unfold worked_cells, worked_phi, worked_fuel in E.
  repeat run_step E.
  unfold ret in E. injection E as <- <-.
  repeat match goal with
         | E1 : ?c = Ok ?i, E2 : ?c = Ok ?j |- _ =>
             rewrite E1 in E2; injection E2 as <-
         end.
  eexists (mkAnswers _ _ _ _ _ _ _).
  cbn [X_reac i_fuel n_C n_H n_O X_burnt i_H2O].
  split; [eassumption|]. split; [|split; reflexivity].
  intros A. unfold answered; cbn [X_reac i_fuel n_C n_H n_O X_burnt i_H2O].
  repeat split; assumption.
Qed.

(** X5.  Provided the library reads the two ways of writing air alike, the
    lower heating values of the worked example of cells 3 to 15, run on its
    own object, are those that a call [heating_values('C3H8')] returns,
    divided by 1000, whatever state the routine's objects are in; in exact
    arithmetic and in binary64 alike. *)
Theorem worked_cells_lhv (w w' w0 : World num lib) (lm lmol hm hmol : num) :
  worked_cells lib w = Ok ((lm, lmol, hm, hmol), w') ->
  lib_equivalence_ratio lib (lit Lit.c1_0) "C3H8" worked_air
    = lib_equivalence_ratio lib (lit Lit.c1_0) "C3H8" air ->
  exists lmJ lmolJ hmJ hmolJ : num,
    value (heating_values lib "C3H8" w0) = Ok (lmJ, lmolJ, hmJ, hmolJ) /\
    lm = lmJ / lit Lit.c1000 /\
    lmol = lmolJ / lit Lit.c1000.
Proof.
  intros E S. apply worked_cells_Ok in E.
  destruct E as (o & E1 & A & E & _).
  rewrite S in E1. specialize (A E1).
  injection E as -> -> _ _.
  exists (lhv_mass o), (lhv_mass o * MW_fuel o),
    (hhv_mass o), (hhv_mass o * MW_fuel o).
  split; [rewrite (heating_values_answered "C3H8" w0 o A); reflexivity|].
  split; reflexivity.
Qed.

(** *** Cell 17 *)

Local Open Scope list_scope.

Lemma assign_row_app (pre rest : list (row num)) (r r0 : row num) :
  assign_row (List.length pre) r (pre ++ r0 :: rest) = Some (pre ++ r :: rest).
Proof.
  induction pre as [|p pre IH]; cbn; [reflexivity|].
  rewrite IH. reflexivity.
Qed.

Lemma nth_error_app_here (pre rest : list (row num)) (r : row num) :
  nth_error (pre ++ r :: rest) (List.length pre) = Some r.
Proof.
  induction pre as [|p pre IH]; cbn; [reflexivity|exact IH].
Qed.

(** How a run of the loop from state [w] ends, given the fuels done and the
    fuels not done. *)
Inductive loop_end (w : World num lib)
  : list string -> list string -> outcome (World num lib) -> Prop :=
| end_Done (done : list string) (w' : World num lib) :
    (done = [] /\ w' = w \/
     exists init f o,
       done = init ++ [f] /\ answered lib f o /\ w' = final_world o) ->
    loop_end w done [] (Done w')
| end_Stopped (done rest : list string) (f : string) (e : exn) :
    library_raises lib f e ->
    (forall w0, value (heating_values lib f w0) = Raise e) ->
    loop_end w done (f :: rest) (Stopped (LibraryError e)).

Lemma fuel_loop_spec (todo : list string) :
  forall (pre rest : list (row num)) (out : list (line num))
         (w : World num lib),
    List.length rest = List.length todo ->
    exists (done undone : list string) (rows : list (row num))
           (res : outcome (World num lib)),
      fuel_loop lib (List.length pre) todo (pre ++ rest) out w
        = (pre ++ rows ++ skipn (List.length done) rest,
           out ++ table_lines done rows, res) /\
      todo = done ++ undone /\
      Forall2 (row_of lib) done rows /\
      loop_end w done undone res.
Proof.
  induction todo as [|f todo IH]; intros pre rest out w L.
  - destruct rest; [|discriminate L].
    exists [], [], [], (Done w). cbn.
    rewrite !app_nil_r. repeat split; try constructor.
    left. split; reflexivity.
  - destruct rest as [|r0 rest]; [discriminate L|].
    injection L as L. cbn [fuel_loop].
    destruct (heating_values lib f w) as [[r w1]|e] eqn:E.
    + rewrite assign_row_app, nth_error_app_here.
      destruct (IH (pre ++ [r]) rest (out ++ [printed f r]) w1 L)
        as (done & undone & rows & res & EQ & TD & F & LE).
      rewrite length_app, Nat.add_1_r, <- !app_assoc in EQ. cbn [app] in EQ.
      exists (f :: done), undone, (r :: rows), res.
      rewrite EQ. split; [reflexivity|].
      split; [cbn; rewrite TD; reflexivity|].
      split; [constructor; [exact (run_Ok_row f w w1 r E)|exact F]|].
      inversion LE as [done' w' W D U R|done' rest' f' e' LR RA D U R];
        subst.
      * constructor. right.
        destruct W as [[-> ->]|(init & g & o & -> & A & ->)].
        -- apply heating_values_Ok in E. destruct E as (o & A & _ & ->).
           exists [], f, o.
           split; [reflexivity|split; [exact A|reflexivity]].
        -- exists (f :: init), g, o.
           split; [reflexivity|split; [exact A|reflexivity]].
      * apply end_Stopped; assumption.
    + exists [], (f :: todo), [], (Stopped (LibraryError e)).
      cbn. rewrite !app_nil_r. repeat split; try constructor.
      * exact (run_Raise_library f w e E).
      * exact (run_Raise_any f w e E).
Qed.

Lemma skipn_zeros (n k : nat) :
  skipn k (zeros (num := num) n) = zeros (n - k).
Proof.
  revert k; induction n as [|n IH]; intros [|k]; cbn; try reflexivity.
  apply IH.
Qed.

Lemma cell17_spec (fuels : list string) (w : World num lib) :
  exists (done undone : list string) (rows : list (row num))
         (res : outcome (World num lib)),
    cell17 lib fuels w
      = (rows ++ zeros (List.length undone),
         [Text (format_60s header1); Text (format_60s header2)]
           ++ table_lines done rows, res) /\
    fuels = done ++ undone /\
    Forall2 (row_of lib) done rows /\
    loop_end w done undone res.
Proof.
  unfold cell17.
  destruct (fuel_loop_spec fuels [] (zeros (List.length fuels))
              [Text (format_60s header1); Text (format_60s header2)] w)
    as (done & undone & rows & res & EQ & -> & F & LE).
  { unfold zeros. apply repeat_length. }
  exists done, undone, rows, res.
  cbn [List.length app] in EQ. rewrite EQ.
  split; [|split; [reflexivity|split; assumption]].
  rewrite skipn_zeros, length_app.
  replace (List.length done + List.length undone - List.length done)%nat
    with (List.length undone)
    by (rewrite Nat.add_comm, Nat.add_sub; reflexivity).
  reflexivity.
Qed.

(** X1.  When cell 17 runs to its end, [hvs] holds one row per fuel, in the
    order of the list, and each row is what [heating_values] returns for
    that fuel from any state: the calls share the objects but do not
    influence one another.  The output is the two header lines followed by
    one line per fuel with the row's entries divided by 1000.  The objects
    are left as the call for the last fuel leaves them, or untouched when
    the list is empty. *)
Theorem cell17_done (fuels : list string) (w w' : World num lib)
    (hvs : list (row num)) (out : list (line num)) :
  cell17 lib fuels w = (hvs, out, Done w') ->
  Forall2 (row_of lib) fuels hvs /\
  out = [Text (format_60s header1); Text (format_60s header2)]
          ++ table_lines fuels hvs /\
  (fuels = [] /\ w' = w \/
   exists init f o,
     fuels = init ++ [f] /\ answered lib f o /\ w' = final_world o).
Proof.
  intros E.
  destruct (cell17_spec fuels w)
    as (done & undone & rows & res & EQ & S & F & LE).
  rewrite EQ in E. injection E as <- <- ->.
  inversion LE as [done' w0 W D U R|]; subst.
  cbn. rewrite !app_nil_r in *.
  repeat split; assumption.
Qed.

(** X2.  When cell 17 stops early, it is with an exception the library
    raised in the call for some fuel [f] of the list, an exception that call
    raises from any state; never with an index error.  The fuels before [f]
    have their rows in [hvs] and their lines printed, the rows of [f] and of
    the fuels after it are still zero, and nothing is printed for them. *)
Theorem cell17_stopped (fuels : list string) (w : World num lib)
    (hvs : list (row num)) (out : list (line num)) (x : cell_exn) :
  cell17 lib fuels w = (hvs, out, Stopped x) ->
  exists (done rest : list string) (f : string) (rows : list (row num))
         (e : exn),
    fuels = done ++ f :: rest /\
    x = LibraryError e /\
    library_raises lib f e /\
    (forall w0, value (heating_values lib f w0) = Raise e) /\
    Forall2 (row_of lib) done rows /\
    hvs = rows ++ zeros (S (List.length rest)) /\
    out = [Text (format_60s header1); Text (format_60s header2)]
            ++ table_lines done rows.
Proof.
  intros E.
  destruct (cell17_spec fuels w)
    as (done & undone & rows & res & EQ & S & F & LE).
  rewrite EQ in E. injection E as <- <- ->.
  inversion LE as [|done' rest f e LR RA D U R]; subst.
  exists done, rest, f, rows, e.
  repeat split; assumption.
Qed.

(** X3.  When [heating_values] returns for every fuel of the list, cell 17
    runs to its end. *)
Theorem cell17_completes (fuels : list string) (w : World num lib) :
  (forall f, In f fuels -> exists r, row_of lib f r) ->
  exists (hvs : list (row num)) (out : list (line num))
         (w' : World num lib),
    cell17 lib fuels w = (hvs, out, Done w').
Proof.
  intros A.
  destruct (cell17_spec fuels w)
    as (done & undone & rows & res & EQ & S & F & LE).
  inversion LE as [done' w' W D U R|done' rest f e LR RA D U R]; subst.
  - eexists _, _, w'. exact EQ.
  - destruct (A f) as [r R].
    { apply in_or_app. right. left. reflexivity. }
    specialize (R w). rewrite (RA w) in R. discriminate R.
Qed.

End Runs.

(** ** Exact arithmetic *)

(** C1.  For all atom counts [x], [y], [z] of the fuel (negative ones
    included), [a = x + y/4 - z/2] and the product mole numbers
    [N_CO2 = x], [N_H2O = y/2], [N_N2 = 3.76 a] of the routine give both
    sides of [C_x H_y O_z + a (O2 + 3.76 N2) -> x CO2 + y/2 H2O + 3.76 a N2]
    the same number of atoms of C, of H, of O and of N. *)
Theorem atom_balance (x y z : Q) (e : element) :
  (atoms e (reactants x y z) == atoms e (products x y z))%Q.
Proof.
  destruct e; cbn; unfold N_CO2, N_H2O, N_N2, stoich_a, zero, one, two; cbn;
    field.
Qed.

(** C3, as amended.  In exact arithmetic the returned higher and lower
    heating values per unit mass differ by [m_H2O * h_fg], where [m_H2O] is
    the moles of water per mole of fuel times the ratio of the molecular
    weights of water and fuel, and [h_fg] the enthalpy of vaporization of
    water at the reference temperature. *)
Theorem hhv_minus_lhv_exact (lib : Library Q) (fuel : string)
    (w w' : World Q lib) (lm lmol hm hmol : Q) :
  heating_values lib fuel w = Ok ((lm, lmol, hm, hmol), w') ->
  exists o : Answers lib,
    answered lib fuel o /\
    (hm - lm ==
     n_H o / 2
     * (lib_molecular_weights lib (i_H2O o)
        / lib_molecular_weights lib (i_fuel o))
     * (lib_water_h lib T_ref 1.0 - lib_water_h lib T_ref 0.0))%Q.
Proof.
  intros E. apply heating_values_Ok in E. destruct E as (o & A & E & _).
  exists o. split; [exact A|].
  injection E as -> _ -> _.
  unfold hhv_mass, m_h2o, h_fg, N_H2O, MW_H2O, MW_fuel. cbn.
  unfold Qdiv. ring.
Qed.

(** ** The notebook's numbers *)

(** In binary64 the cells of the worked example evaluate to the very numbers
    the notebook prints: [Out[7]] (the third component), [Out[10]],
    [Out[13]] (the second component), [Out[14]] and [Out[15]]. *)
Example worked_cells_binary64 :
  N_N2 Worked.x Worked.y Worked.z = 18.799999999999997%float /\
  Worked.lhv_mass = 46352.14516570347%float /\
  Worked.lhv_mole = 2043968.2963423461%float /\
  Worked.hbar_fg = 43998.934880021625%float /\
  Worked.m_h2o = 1.6341679570179235%float /\
  Worked.hhv_mass = 50343.2932091338%float /\
  Worked.hhv_mole = 2219964.035862433%float.
Proof. repeat split; vm_compute; reflexivity. Qed.

(** C5.  For propane at 298.15 K and 1 atm, from the enthalpies, the mass
    fraction and the enthalpy of vaporization the notebook records and the
    molecular weights of H2O and C3H8, the lower heating value of cell 10 is
    within 0.5 of 46352 kJ/kg and the higher heating value of cell 15 within
    0.5 of 50343 kJ/kg, in exact arithmetic and in binary64 alike. *)
Theorem propane_worked_example :
  (Qabs (Worked.lhv_mass - 46352) < 0.5)%Q /\
  (Qabs (Worked.hhv_mass - 50343) < 0.5)%Q /\
  PrimFloat.ltb (PrimFloat.abs (Worked.lhv_mass - 46352)) 0.5 = true /\
  PrimFloat.ltb (PrimFloat.abs (Worked.hhv_mass - 50343)) 0.5 = true.
Proof. repeat split; vm_compute; reflexivity. Qed.

(** The routine on the replayed library, in binary64 (J/kg and J/kmol);
    divided by 1000 these are the row of C3H8 in the table of cell 17. *)
Example heating_values_propane_binary64 :
  Propane.returned_float =
  Ok (46352145.165703468, 2043968296.3423462,
      50343293.209133796, 2219964035.8624325)%float.
Proof. reflexivity. Qed.

(** In exact arithmetic it returns the same values up to rounding: here to
    the nearest J/kg. *)
Example heating_values_propane_exact :
  match Propane.returned_Q with
  | Ok (lm, _, hm, _) =>
      (Qabs (lm - 46352145) < 0.5)%Q /\ (Qabs (hm - 50343293) < 0.5)%Q
  | Raise _ => False
  end.
Proof. split; vm_compute; reflexivity. Qed.

(** A fuel the library does not know: the library's exception is what the
    caller gets. *)
Example heating_values_unknown_fuel :
  heating_values (num := float) Propane.cantera "C8H18" Propane.before =
  Raise (CanteraError "Unknown species").
Proof. reflexivity. Qed.

(** For the atom counts of actual fuels the balance is also exact in
    binary64: all counts up to C12 H26 O6. *)
Example atom_balance_binary64 :
  forallb
    (fun x =>
       forallb
         (fun y => forallb (fun z => balanced_binary64 x y z) (seq 0 7))
         (seq 0 27))
    (seq 0 13) = true.
Proof. vm_compute. reflexivity. Qed.

(** C3, as stated, fails in binary64.  On the replayed propane data the
    routine returns [hm = 50343293.209133796] and [lm = 46352145.165703468];
    their difference is [3991148.0434303284], while [m_h2o * h_fg] is
    [3991148.0434303316], whether [m_h2o] is computed as the routine does
    or as moles times the ratio of molecular weights. *)
Lemma hhv_minus_lhv_binary64 :
  exists (lm lmol hm hmol : float) (w' : World float Propane.cantera),
    heating_values Propane.cantera "C3H8" Propane.before
      = Ok ((lm, lmol, hm, hmol), w') /\
    answered Propane.cantera "C3H8" Propane.answers /\
    (hm - lm = 3991148.0434303284)%float /\
    (m_h2o Propane.answers * h_fg Propane.cantera)%num
      = 3991148.0434303316%float /\
    (n_H Propane.answers / 2
     * (MW_H2O Propane.answers / MW_fuel Propane.answers)
     * h_fg Propane.cantera)%float = 3991148.0434303316%float /\
    (hm - lm)%float <> (m_h2o Propane.answers * h_fg Propane.cantera)%num.
Proof.
  exists 46352145.165703468%float, 2043968296.3423462%float,
    50343293.209133796%float, 2219964035.8624325%float,
    (final_world Propane.answers).
  split; [reflexivity|].
  split; [repeat split|].
  split; [reflexivity|].
  split; [reflexivity|].
  split; [reflexivity|].
  intros E.
  apply (f_equal (fun v => PrimFloat.eqb v 3991148.0434303284%float)) in E.
  vm_compute in E. discriminate E.
Qed.

(** The same on the printed cells: [Out[15]] minus [Out[10]] is not
    [Out[14]] times [Out[13]]. *)
Example worked_cells_difference :
  (Worked.hhv_mass - Worked.lhv_mass = 3991.1480434303303)%float /\
  (Worked.m_h2o * Worked.h_fg)%num = 3991.1480434303317%float.
Proof. split; vm_compute; reflexivity. Qed.

(** ** The theorems at the propane data *)

Lemma lhv_mass_enthalpy_difference_witness :
  heating_values Propane.cantera "C3H8" Propane.before
    = Ok ((46352145.165703468, 2043968296.3423462,
           50343293.209133796, 2219964035.8624325)%float,
          final_world Propane.answers) /\
  exists o : Answers Propane.cantera,
    answered Propane.cantera "C3H8" o /\
    46352145.165703468%float
    = ((lib_enthalpy_mass Propane.cantera T_ref P_ref (X_reac o)
        - lib_enthalpy_mass Propane.cantera T_ref P_ref (X_burnt o))
       / lib_Y Propane.cantera (X_reac o) (i_fuel o))%num.
Proof.
  split; [reflexivity|].
  apply (lhv_mass_enthalpy_difference Propane.cantera "C3H8" Propane.before
           (final_world Propane.answers) 46352145.165703468%float
           2043968296.3423462%float 50343293.209133796%float
           2219964035.8624325%float).
  reflexivity.
Defined.

Lemma hhv_mass_adds_vaporization_witness :
  heating_values Propane.cantera "C3H8" Propane.before
    = Ok ((46352145.165703468, 2043968296.3423462,
           50343293.209133796, 2219964035.8624325)%float,
          final_world Propane.answers) /\
  exists o : Answers Propane.cantera,
    answered Propane.cantera "C3H8" o /\
    50343293.209133796%float
    = (46352145.165703468%float
       + (n_H o / lit Lit.c2) * lib_molecular_weights Propane.cantera (i_H2O o)
         / lib_molecular_weights Propane.cantera (i_fuel o)
         * (lib_water_h Propane.cantera T_ref (lit Lit.c1_0)
            - lib_water_h Propane.cantera T_ref (lit Lit.c0_0)))%num /\
    water (final_world Propane.answers) = mkWater T_ref (lit Lit.c1_0).
Proof.
  split; [reflexivity|].
  apply (hhv_mass_adds_vaporization Propane.cantera "C3H8" Propane.before
           (final_world Propane.answers) 46352145.165703468%float
           2043968296.3423462%float 50343293.209133796%float
           2219964035.8624325%float).
  reflexivity.
Defined.

Lemma product_state_keeps_T_P_witness :
  heating_values Propane.cantera "C3H8" Propane.before
    = Ok ((46352145.165703468, 2043968296.3423462,
           50343293.209133796, 2219964035.8624325)%float,
          final_world Propane.answers) /\
  exists (o : Answers Propane.cantera)
         (w1 w2 : World float Propane.cantera),
    answered Propane.cantera "C3H8" o /\
    set_reactants Propane.cantera "C3H8" Propane.before = Ok (tt, w1) /\
    T (gas w1) = T_ref /\ P (gas w1) = P_ref /\
    set_products Propane.cantera (n_C o) (n_H o) (n_O o) w1 = Ok (tt, w2) /\
    T (gas w2) = T (gas w1) /\ P (gas w2) = P (gas w1) /\
    gas (final_world Propane.answers) = gas w2 /\
    gas_enthalpy_mass Propane.cantera w1 =
      Ok (lib_enthalpy_mass Propane.cantera T_ref P_ref (X_reac o), w1) /\
    gas_enthalpy_mass Propane.cantera w2 =
      Ok (lib_enthalpy_mass Propane.cantera T_ref P_ref (X_burnt o), w2).
Proof.
  split; [reflexivity|].
  apply (product_state_keeps_T_P Propane.cantera "C3H8" Propane.before
           (final_world Propane.answers)
           (46352145.165703468, 2043968296.3423462,
            50343293.209133796, 2219964035.8624325)%float).
  reflexivity.
Defined.

Lemma mole_values_scale_by_MW_witness :
  heating_values Propane.cantera "C3H8" Propane.before
    = Ok ((46352145.165703468, 2043968296.3423462,
           50343293.209133796, 2219964035.8624325)%float,
          final_world Propane.answers) /\
  exists i : nat,
    lib_species_index Propane.cantera "C3H8" = Ok i /\
    2043968296.3423462%float
    = (46352145.165703468%float
       * lib_molecular_weights Propane.cantera i)%num /\
    2219964035.8624325%float
    = (50343293.209133796%float
       * lib_molecular_weights Propane.cantera i)%num.
Proof.
  split; [reflexivity|].
  apply (mole_values_scale_by_MW Propane.cantera "C3H8" Propane.before
           (final_world Propane.answers) 46352145.165703468%float
           2043968296.3423462%float 50343293.209133796%float
           2219964035.8624325%float).
  reflexivity.
Defined.

Lemma gas_left_in_product_state_witness :
  heating_values Propane.cantera "C3H8" Propane.before
    = Ok ((46352145.165703468, 2043968296.3423462,
           50343293.209133796, 2219964035.8624325)%float,
          final_world Propane.answers) /\
  exists o : Answers Propane.cantera,
    answered Propane.cantera "C3H8" o /\
    lib_mole_fractions Propane.cantera
      [("CO2"%string, n_C o); ("H2O"%string, (n_H o / lit Lit.c2)%num);
       ("N2"%string,
        (lit Lit.c3_76 * (n_C o + n_H o / lit Lit.c4
                          - n_O o / lit Lit.c2))%num)]
      = Ok (X_burnt o) /\
    gas (final_world Propane.answers) = mkSolution T_ref P_ref (X_burnt o) /\
    (gas Propane.before <> mkSolution T_ref P_ref (X_burnt o) ->
     gas (final_world Propane.answers) <> gas Propane.before).
Proof.
  split; [reflexivity|].
  apply (gas_left_in_product_state Propane.cantera "C3H8" Propane.before
           (final_world Propane.answers)
           (46352145.165703468, 2043968296.3423462,
            50343293.209133796, 2219964035.8624325)%float).
  reflexivity.
Defined.

(** On the replayed data the gas really has changed: it was at 1500 K and
    is at 298.15 K. *)
Example gas_changed_propane :
  T (gas (Propane.before (num := float))) = 1500%float /\
  T (gas (final_world (Propane.answers (num := float)))) = 298.15%float /\
  gas (final_world (Propane.answers (num := float)))
    <> gas (Propane.before (num := float)).
Proof.
  split; [reflexivity|]. split; [reflexivity|].
  intros E. apply (f_equal (fun g => PrimFloat.eqb (T g) 1500)) in E.
  vm_compute in E. discriminate E.
Qed.

Lemma hhv_minus_lhv_exact_witness :
  heating_values (num := Q) Propane.cantera "C3H8" Propane.before
    = Ok ((lhv_mass Propane.answers,
           (lhv_mass Propane.answers * MW_fuel Propane.answers)%Q,
           hhv_mass Propane.answers,
           (hhv_mass Propane.answers * MW_fuel Propane.answers)%Q),
          final_world Propane.answers) /\
  exists o : Answers Propane.cantera,
    answered Propane.cantera "C3H8" o /\
    (hhv_mass Propane.answers - lhv_mass Propane.answers ==
     n_H o / 2
     * (lib_molecular_weights Propane.cantera (i_H2O o)
        / lib_molecular_weights Propane.cantera (i_fuel o))
     * (lib_water_h Propane.cantera T_ref 1.0
        - lib_water_h Propane.cantera T_ref 0.0))%Q.
Proof.
  split; [reflexivity|].
  apply (hhv_minus_lhv_exact Propane.cantera "C3H8" Propane.before
           (final_world Propane.answers) (lhv_mass Propane.answers)
           (lhv_mass Propane.answers * MW_fuel Propane.answers)%Q
           (hhv_mass Propane.answers)
           (hhv_mass Propane.answers * MW_fuel Propane.answers)%Q).
  reflexivity.
Defined.

(** ** Callers of the routine, in exact arithmetic *)

(** X6.  In exact arithmetic the higher heating values of the worked example
    are those of the routine divided by 1000 as well, under the same
    proviso on the two ways of writing air. *)
Theorem worked_cells_hhv_exact (lib : Library Q) (w w' : World Q lib)
    (lm lmol hm hmol : Q) :
  worked_cells lib w = Ok ((lm, lmol, hm, hmol), w') ->
  lib_equivalence_ratio lib 1.0%Q "C3H8" worked_air
    = lib_equivalence_ratio lib 1.0%Q "C3H8" air ->
  exists lmJ lmolJ hmJ hmolJ : Q,
    heating_values lib "C3H8" w = Ok ((lmJ, lmolJ, hmJ, hmolJ), w') /\
    (hm == hmJ / 1000)%Q /\
    (hmol == hmolJ / 1000)%Q.
Proof.
  intros E S. apply worked_cells_Ok in E.
  destruct E as (o & E1 & A & E & ->).
  cbn in E1. rewrite S in E1. specialize (A E1).
  injection E as _ _ -> ->.
  exists (lhv_mass o), (lhv_mass o * MW_fuel o)%Q,
    (hhv_mass o), (hhv_mass o * MW_fuel o)%Q.
  split; [exact (heating_values_answered lib "C3H8" w o A)|].
  unfold hhv_mass. cbn. unfold Qdiv. split; ring.
Qed.

(** X7.  For a fuel with non-negative counts of C and H, the mole numbers
    [X_prod] that the routine hands to the library are all non-negative
    exactly when the fuel holds no more oxygen than complete combustion
    needs, [z <= 2x + y/2]; beyond that the entry of N2 is negative. *)
Theorem product_moles_nonnegative (x y z : Q) :
  (0 <= x)%Q -> (0 <= y)%Q ->
  (Forall (fun kv => 0 <= snd kv)%Q (X_prod x y z) <-> (z <= 2 * x + y / 2)%Q).
Proof.
  intros Hx Hy. unfold X_prod, N_CO2, N_H2O, N_N2, stoich_a. cbn.
  unfold Qdiv. change (/ 4)%Q with (1 # 4)%Q. change (/ 2)%Q with (1 # 2)%Q.
  split.
  - intros F. inversion F as [|? ? _ F1]; subst.
    inversion F1 as [|? ? _ F2]; subst.
    inversion F2 as [|? ? H3 _]; subst. cbn in H3. lra.
  - intros H. repeat constructor; cbn; lra.
Qed.

(** X8.  Mass is conserved in the conversion of reactants to products, as
    cell 10 takes for granted: for any atomic weights the two sides of the
    global reaction, with the routine's mole numbers, have the same mass. *)
Theorem mass_balance (wt : element -> Q) (x y z : Q) :
  (mass wt (reactants x y z) == mass wt (products x y z))%Q.
Proof.
  cbn. unfold weight_of, N_CO2, N_H2O, N_N2, stoich_a, zero, one, two. cbn.
  field.
Qed.

(** ** The callers at the propane data *)

Lemma worked_cells_lhv_witness :
  worked_cells Propane.cantera Propane.before
    = Ok ((46352.14516570347, 2043968.2963423461,
           50343.2932091338, 2219964.035862433)%float,
          final_world Propane.answers) /\
  lib_equivalence_ratio Propane.cantera (lit Lit.c1_0) "C3H8" worked_air
    = lib_equivalence_ratio Propane.cantera (lit Lit.c1_0) "C3H8" air /\
  exists lmJ lmolJ hmJ hmolJ : float,
    value (heating_values Propane.cantera "C3H8"
             (mkWorld (mkSolution (lib := Propane.cantera) 300 101325
                                  Propane.Fresh)
                      (mkWater 400 0.5))%float)
      = Ok (lmJ, lmolJ, hmJ, hmolJ) /\
    46352.14516570347%float = (lmJ / lit Lit.c1000)%num /\
    2043968.2963423461%float = (lmolJ / lit Lit.c1000)%num.
Proof.
  split; [reflexivity|]. split; [reflexivity|].
  apply (worked_cells_lhv Propane.cantera Propane.before
           (final_world Propane.answers)
           (mkWorld (mkSolution (lib := Propane.cantera) 300 101325
                                Propane.Fresh)
                    (mkWater 400 0.5))%float
           46352.14516570347%float
           2043968.2963423461%float 50343.2932091338%float
           2219964.035862433%float); reflexivity.
Defined.

(** In binary64 the higher heating values of the two paths differ in the
    last digits: the example gives [50343.293209133801], the routine's value
    divided by 1000 is [50343.293209133793]. *)
Example worked_cells_hhv_binary64 :
  value (worked_cells Propane.cantera Propane.before)
    = Ok (46352.14516570347, 2043968.2963423461,
          50343.293209133801, 2219964.0358624328)%float /\
  (50343293.209133796 / 1000 = 50343.293209133793)%float.
Proof. split; reflexivity. Qed.

Lemma worked_cells_hhv_exact_witness :
  worked_cells (num := Q) Propane.cantera Propane.before
    = Ok ((lhv_mass Propane.answers / 1000,
           lhv_mass Propane.answers * MW_fuel Propane.answers / 1000,
           lhv_mass Propane.answers / 1000
           + m_h2o Propane.answers * (h_fg Propane.cantera / 1000),
           (lhv_mass Propane.answers / 1000
            + m_h2o Propane.answers * (h_fg Propane.cantera / 1000))
           * MW_fuel Propane.answers)%Q,
          final_world Propane.answers) /\
  lib_equivalence_ratio (num := Q) Propane.cantera 1.0%Q "C3H8" worked_air
    = lib_equivalence_ratio Propane.cantera 1.0%Q "C3H8" air /\
  exists lmJ lmolJ hmJ hmolJ : Q,
    heating_values Propane.cantera "C3H8" Propane.before
      = Ok ((lmJ, lmolJ, hmJ, hmolJ), final_world Propane.answers) /\
    (lhv_mass Propane.answers / 1000
     + m_h2o Propane.answers * (h_fg Propane.cantera / 1000)
     == hmJ / 1000)%Q /\
    ((lhv_mass Propane.answers / 1000
      + m_h2o Propane.answers * (h_fg Propane.cantera / 1000))
     * MW_fuel Propane.answers == hmolJ / 1000)%Q.
Proof.
  split; [reflexivity|]. split; [reflexivity|].
  apply (worked_cells_hhv_exact Propane.cantera Propane.before
           (final_world Propane.answers)
           (lhv_mass Propane.answers / 1000)%Q
           (lhv_mass Propane.answers * MW_fuel Propane.answers / 1000)%Q);
    reflexivity.
Defined.

Lemma cell17_done_witness :
  cell17 TwoFuels.cantera ["H2"; "C3H8"]%string TwoFuels.before
    = ([(119959817.67180926, 241824597.24824685,
         141785985.34053043, 285823532.12826848)%float;
        (46352145.165703468, 2043968296.3423462,
         50343293.209133796, 2219964035.8624325)%float],
       [Text (format_60s header1); Text (format_60s header2);
        Values "H2" 119959.81767180926%float 241824.59724824684%float
               141785.98534053043%float 285823.5321282685%float;
        Values "C3H8" 46352.14516570347%float 2043968.2963423461%float
               50343.293209133793%float 2219964.0358624323%float],
       Done (final_world TwoFuels.answers_C3H8)) /\
  (Forall2 (row_of TwoFuels.cantera) ["H2"; "C3H8"]%string
     [(119959817.67180926, 241824597.24824685,
       141785985.34053043, 285823532.12826848)%float;
      (46352145.165703468, 2043968296.3423462,
       50343293.209133796, 2219964035.8624325)%float] /\
   [Text (format_60s header1); Text (format_60s header2);
    Values "H2" 119959.81767180926%float 241824.59724824684%float
           141785.98534053043%float 285823.5321282685%float;
    Values "C3H8" 46352.14516570347%float 2043968.2963423461%float
           50343.293209133793%float 2219964.0358624323%float]
   = [Text (format_60s header1); Text (format_60s header2)]
       ++ table_lines ["H2"; "C3H8"]%string
            [(119959817.67180926, 241824597.24824685,
              141785985.34053043, 285823532.12826848)%float;
             (46352145.165703468, 2043968296.3423462,
              50343293.209133796, 2219964035.8624325)%float] /\
   (["H2"; "C3H8"]%string = []
    /\ final_world TwoFuels.answers_C3H8 = TwoFuels.before \/
    exists init f o,
      ["H2"; "C3H8"]%string = init ++ [f] /\
      answered TwoFuels.cantera f o /\
      final_world TwoFuels.answers_C3H8 = final_world o)).
Proof.
  split; [reflexivity|].
  apply (cell17_done TwoFuels.cantera ["H2"; "C3H8"]%string TwoFuels.before).
  reflexivity.
Defined.

(** The rows follow the list: with the fuels the other way round, so are
    the rows, and each row is the same as before. *)
Example cell17_order :
  fst (fst (cell17 TwoFuels.cantera ["C3H8"; "H2"]%string TwoFuels.before))
  = [(46352145.165703468, 2043968296.3423462,
      50343293.209133796, 2219964035.8624325)%float;
     (119959817.67180926, 241824597.24824685,
      141785985.34053043, 285823532.12826848)%float].
Proof. reflexivity. Qed.

Lemma cell17_stopped_witness :
  cell17 Propane.cantera ["C3H8"; "H2"; "C3H8"]%string Propane.before
    = ([(46352145.165703468, 2043968296.3423462,
         50343293.209133796, 2219964035.8624325)%float;
        (0, 0, 0, 0)%float; (0, 0, 0, 0)%float],
       [Text (format_60s header1); Text (format_60s header2);
        Values "C3H8" 46352.14516570347%float 2043968.2963423461%float
               50343.293209133793%float 2219964.0358624323%float],
       Stopped (LibraryError (CanteraError "Unknown species"))) /\
  exists (done rest : list string) (f : string) (rows : list (row float))
         (e : exn),
    ["C3H8"; "H2"; "C3H8"]%string = done ++ f :: rest /\
    LibraryError (CanteraError "Unknown species") = LibraryError e /\
    library_raises Propane.cantera f e /\
    (forall w0, value (heating_values Propane.cantera f w0) = Raise e) /\
    Forall2 (row_of Propane.cantera) done rows /\
    [(46352145.165703468, 2043968296.3423462,
      50343293.209133796, 2219964035.8624325)%float;
     (0, 0, 0, 0)%float; (0, 0, 0, 0)%float]
    = rows ++ zeros (S (List.length rest)) /\
    [Text (format_60s header1); Text (format_60s header2);
     Values "C3H8" 46352.14516570347%float 2043968.2963423461%float
            50343.293209133793%float 2219964.0358624323%float]
    = [Text (format_60s header1); Text (format_60s header2)]
        ++ table_lines done rows.
Proof.
  split; [reflexivity|].
  apply (cell17_stopped Propane.cantera ["C3H8"; "H2"; "C3H8"]%string
           Propane.before).
  reflexivity.
Defined.

Lemma cell17_completes_witness :
  (forall f, In f ["C3H8"; "C3H8"]%string ->
             exists r, row_of (num := float) Propane.cantera f r) /\
  exists (hvs : list (row float)) (out : list (line float))
         (w' : World float Propane.cantera),
    cell17 Propane.cantera ["C3H8"; "C3H8"]%string Propane.before
    = (hvs, out, Done w').
Proof.
  assert (A : forall f, In f ["C3H8"; "C3H8"]%string ->
                        exists r, row_of (num := float) Propane.cantera f r).
  { intros f [<-|[<-|[]]];
      exists (46352145.165703468, 2043968296.3423462,
              50343293.209133796, 2219964035.8624325)%float;
      intros w0; reflexivity. }
  split; [exact A|].
  apply (cell17_completes Propane.cantera ["C3H8"; "C3H8"]%string
           Propane.before A).
Defined.

(** Hydrogen peroxide, H2 O2, holds more oxygen than its combustion needs:
    the N2 entry handed to the library is negative. *)
Example product_moles_H2O2 :
  (X_prod 0 2 2 = [("CO2"%string, 0); ("H2O"%string, 2 / 2);
                   ("N2"%string, 3.76 * (0 + 2 / 4 - 2 / 2))])%Q /\
  (3.76 * (0 + 2 / 4 - 2 / 2) == -1.88)%Q.
Proof. split; reflexivity. Qed.

Lemma product_moles_nonnegative_witness :
  (0 <= 3)%Q /\ (0 <= 8)%Q /\
  (Forall (fun kv => 0 <= snd kv)%Q (X_prod 3 8 0)
   <-> (0 <= 2 * 3 + 8 / 2)%Q).
Proof.
  assert (H3 : (0 <= 3)%Q) by (apply Qle_bool_imp_le; reflexivity).
  assert (H8 : (0 <= 8)%Q) by (apply Qle_bool_imp_le; reflexivity).
  split; [exact H3|]. split; [exact H8|].
  apply (product_moles_nonnegative 3 8 0 H3 H8).
Defined.

(** C1, as stated for real atom counts, fails in binary64.  At [x = 1],
    [y = 1.7], [z = 0.7] the routine computes [a = 1.0750000000000002]; the
    left side then holds [2.8500000000000005] atoms of O and the right side
    [2.85].  The counts of C, H and N agree. *)
Lemma atom_balance_binary64_fractional :
  (stoich_a 1 1.7 0.7 = 1.0750000000000002)%float /\
  (atoms O (reactants 1 1.7 0.7) = 2.8500000000000005)%float /\
  (atoms O (products 1 1.7 0.7) = 2.85)%float /\
  (atoms O (reactants 1 1.7 0.7) <> atoms O (products 1 1.7 0.7))%float.
Proof.
  split; [reflexivity|]. split; [reflexivity|]. split; [reflexivity|].
  intros E.
  apply (f_equal (fun v => PrimFloat.eqb v 2.85%float)) in E.
  vm_compute in E. discriminate E.
Qed.

(** C8 at a fuel the library does not know: [set_equivalence_ratio] is the
    first call to raise, and what it raises is what the caller gets. *)
Lemma heating_values_propagates_library_errors_witness :
  lib_equivalence_ratio (num := float) Propane.cantera (lit Lit.c1_0)
    "C8H18" air = Raise (CanteraError "Unknown species") /\
  first_failure (num := float) Propane.cantera "C8H18"
    (CanteraError "Unknown species") /\
  heating_values Propane.cantera "C8H18" Propane.before
    = Raise (CanteraError "Unknown species").
Proof.
  assert (F : first_failure (num := float) Propane.cantera "C8H18"
                (CanteraError "Unknown species")).
  { apply fails_set_equivalence_ratio; reflexivity. }
  split; [reflexivity|]. split; [exact F|].
  exact (proj1 (proj1 (heating_values_propagates_library_errors
                         Propane.cantera "C8H18" Propane.before)
                      (CanteraError "Unknown species")) F).
Defined.
